(** * BuildingEnv10Floors: the damper-placement environment of new1.py

    A shallow embedding of [BuildingEnv10Floors] (src/new1.py) and the
    properties of its model-build / analyse / reward / log pipeline.

    Modelling choices.
    - A Python [float] (and a NumPy [float64]) is an IEEE-754 binary64 value:
      Rocq's primitive [float], with the kernel's operations.  Comparisons,
      [abs], negation, subtraction and division are the primitive ones, so
      signed zeros, infinities and NaN behave as they do in Python.
    - Python [int]s are [Z].
    - The [openseespy] module is an external collaborator with one global
      state.  Its numerical engine is a parameter (class [Engine]); the
      environment's calls to it are recorded in a call log, oldest first.
      The engine may refuse a call, which then raises [OpenSeesError] and
      ends the step; [ops.analyze] reports a failed step by its status.
    - The file system is the working directory seen as a finite map from
      directory names to directories, a directory being a finite map from
      file names to file contents.
    - Of the training loop of new1.py only the environment's side is
      modelled ([episodes]: reset, then one step with the sampled action).
      The policy network, its sampling and the optimiser, and the
      stand-alone script, take no part in the properties below. *)

From Stdlib Require Import ZArith Floats Lia Bool.
From stdpp Require Import gmap strings list.

Set Warnings "-inexact-float".
#[local] Open Scope Z_scope.

(** ** Python values *)

Module Py.

(** [abs(x)], [-x], [x - y], [x / y] and [x > y] on floats. *)
Definition fabs (x : float) : float := PrimFloat.abs x.
Definition fneg (x : float) : float := PrimFloat.opp x.
Definition fsub (x y : float) : float := PrimFloat.sub x y.
Definition fmul (x y : float) : float := PrimFloat.mul x y.
Definition fdiv (x y : float) : float := PrimFloat.div x y.
Definition fgt (x y : float) : bool := PrimFloat.ltb y x.
Definition fle (x y : float) : bool := PrimFloat.leb x y.
Definition feq (x y : float) : bool := PrimFloat.eqb x y.

(** [math.isfinite(x)] and [math.isnan(x)]. *)
Definition isfinite (x : float) : bool := PrimFloat.is_finite x.
Definition isnan (x : float) : bool := PrimFloat.is_nan x.

(** [float(i)] for the small integers the program converts. *)
Definition float_of_int (i : Z) : float := PrimFloat.of_uint63 (Uint63.of_Z i).

(** [range(lo, hi)]. *)
Definition range (lo hi : Z) : list Z := seqZ lo (hi - lo).

(** [for x in l: s = body(x, s)]. *)
Definition for_each {S A : Type} (l : list A) (body : A -> S -> S) (s : S) : S :=
  fold_left (fun s x => body x s) l s.

(** [a[i]] and [a[i] = v] on a one-dimensional array.  The program only
    uses indices within [range(len(a))]; see [record_max_length] and the
    index ranges of the loops. *)
Definition getitem (a : list float) (i : Z) : float := nth (Z.to_nat i) a 0%float.
Definition setitem (a : list float) (i : Z) (v : float) : list float :=
  <[Z.to_nat i := v]> a.

(** [np.zeros(n)]. *)
Definition zeros (n : Z) : list float := replicate (Z.to_nat n) 0%float.

(** [np.array([x], dtype=np.float32)[0]]: binary64 rounded to binary32
    (to nearest, ties to even), held again as a binary64 value. *)
Definition float32 (x : float) : float :=
  match Prim2SF x with
  | S754_finite s m e => SF2Prim (binary_round 24 128 s m e)
  | _ => x
  end.

End Py.

(** ** The solver module [ops] *)

(** The calls the environment makes that change the solver's state. *)
Inductive OpsCall : Type :=
| Wipe
| Model (ndm ndf : Z)
| Node (nodeTag : Z) (crd : float)
| Fix (nodeTag dof : Z)
| Mass (nodeTag : Z) (m : float)
| UniaxialMaterialElastic (matTag : Z) (k : float)
| ElementTwoNodeLink (eleTag iNode jNode matTag dir : Z)
| TimeSeriesPath (tag : Z) (dt : float) (values : list float)
| PatternUniformExcitation (patternTag dir accelSeriesTag : Z)
| Rayleigh (alphaM betaK betaKinit betaKcomm : float)
| System (name : string)
| Numberer (name : string)
| Constraints (name : string)
| IntegratorNewmark (gamma beta : float)
| Algorithm (name : string)
| Analysis (name : string)
| Analyze (numIncr : Z) (dt : float).

(** ** Exceptions *)

(** The exceptions a step can end with: those of the file system, and the
    [OpenSeesError] the solver raises when it refuses a call.  Nothing in
    new1.py catches an exception, so one that is raised ends the program. *)
Inductive PyExn : Type :=
| FileNotFoundError (path : string)
| PermissionError (path : string)
| OpenSeesError (call : OpsCall).

Inductive result (A : Type) : Type :=
| Ok (a : A)
| Raise (e : PyExn).
Arguments Ok {A} _.
Arguments Raise {A} _.

#[global] Instance result_bind : MBind result :=
  fun A B (k : A -> result B) (r : result A) =>
    match r with
    | Ok a => k a
    | Raise e => Raise e
    end.

(** [for x in l: s = body(x, s)], where the body may raise. *)
Fixpoint for_each_r {S A : Type} (l : list A) (body : A -> S -> result S) (s : S) : result S :=
  match l with
  | [] => Ok s
  | x :: l' => s' ← body x s; for_each_r l' body s'
  end.

(** The numerical engine behind [ops]: whether it accepts a call or refuses
    it (the call then raises [OpenSeesError]), how an accepted call changes
    its state, the status [ops.analyze] returns, and the displacement
    [ops.nodeDisp] reads. *)
Class Engine (E : Type) : Type := {
  eng_accepts : OpsCall -> E -> bool;
  eng_call : OpsCall -> E -> E;
  eng_status : Z -> float -> E -> Z;
  eng_nodeDisp : Z -> Z -> E -> float
}.

(** The global state of [ops]: the calls made so far, oldest first, and the
    engine's state. *)
Record Ops (E : Type) : Type := MkOps {
  ops_log : list OpsCall;
  ops_engine : E
}.
Arguments MkOps {E} _ _.
Arguments ops_log {E} _.
Arguments ops_engine {E} _.

Section OpsModule.
Context {E : Type} `{Engine E}.

(** The state after a call that the solver carried out. *)
Definition ops_record (c : OpsCall) (o : Ops E) : Ops E :=
  MkOps (ops_log o ++ [c]) (eng_call c (ops_engine o)).

(** A call that returns nothing: it is carried out, or the solver refuses
    it and the call raises. *)
Definition ops_do (c : OpsCall) (o : Ops E) : result (Ops E) :=
  if eng_accepts c (ops_engine o) then Ok (ops_record c o)
  else Raise (OpenSeesError c).

(** A sequence of such calls, in order. *)
Definition ops_do_list (calls : list OpsCall) (o : Ops E) : result (Ops E) :=
  for_each_r calls ops_do o.

(** [ops.analyze(numIncr, dt)]: the status, and the state after the step.
    A step that fails is reported by a non-zero status. *)
Definition ops_analyze (numIncr : Z) (dt : float) (o : Ops E) : Z * Ops E :=
  (eng_status numIncr dt (ops_engine o), ops_record (Analyze numIncr dt) o).

(** [ops.nodeDisp(nodeTag, dof)], a query. *)
Definition ops_nodeDisp (nodeTag dof : Z) (o : Ops E) : float :=
  eng_nodeDisp nodeTag dof (ops_engine o).

End OpsModule.

(** The model that [ops] holds: the calls since the last [Wipe]. *)
Fixpoint since_wipe_aux (cur : list OpsCall) (log : list OpsCall) : list OpsCall :=
  match log with
  | [] => cur
  | Wipe :: rest => since_wipe_aux [] rest
  | c :: rest => since_wipe_aux (cur ++ [c]) rest
  end.

Definition current_model (log : list OpsCall) : list OpsCall := since_wipe_aux [] log.

(** A two-node link element: tag and end nodes. *)
Definition link_of (c : OpsCall) : option (Z * Z * Z) :=
  match c with
  | ElementTwoNodeLink tag i j _ _ => Some (tag, i, j)
  | _ => None
  end.

(** The [twoNodeLink] elements of the model, in creation order. *)
Definition model_links (log : list OpsCall) : list (Z * Z * Z) :=
  omap link_of (current_model log).

(** ** The environment object *)

(** The attributes [__init__] sets. *)
Record Env : Type := MkEnv {
  acc_data : list float;
  num_steps : Z;
  dt : float;
  floor_num : Z;
  code_drift : float;
  episode_count : Z;
  model_built : bool;
  state_dim : Z;
  action_dim : Z;
  last_alphavalue : float
}.

Definition set_episode_count (v : Z) (self : Env) : Env :=
  MkEnv (acc_data self) (num_steps self) (dt self) (floor_num self) (code_drift self)
        v (model_built self) (state_dim self) (action_dim self) (last_alphavalue self).

Definition set_model_built (v : bool) (self : Env) : Env :=
  MkEnv (acc_data self) (num_steps self) (dt self) (floor_num self) (code_drift self)
        (episode_count self) v (state_dim self) (action_dim self) (last_alphavalue self).

Definition set_last_alphavalue (v : float) (self : Env) : Env :=
  MkEnv (acc_data self) (num_steps self) (dt self) (floor_num self) (code_drift self)
        (episode_count self) (model_built self) (state_dim self) (action_dim self) v.

(** [reset]: the new object and the returned state (a float32 array of one
    element). *)
Definition reset (self : Env) : Env * list float :=
  let self := set_last_alphavalue 0%float self in
  let state := [Py.float32 (last_alphavalue self)] in
  (self, state).

(** [__init__], given the record [np.loadtxt(accel_file)] has read. *)
Definition init (record : list float) (dt code_drift : float) : Env :=
  let self :=
    MkEnv record (Z.of_nat (length record)) dt 10 code_drift 0 false 1 10 0%float in
  fst (reset self).

(** The default arguments of [__init__]: [dt=0.02], [code_drift=1 / 100.0]. *)
Definition default_dt : float := 0.02%float.
Definition default_code_drift : float := Py.fdiv 1%float 100%float.

Section Analysis.
Context {E : Type} `{Engine E}.

(** [build_model]. *)
Definition build_model (self : Env) (o : Ops E) : result (Env * Ops E) :=
  o ← ops_do Wipe o;
  let self := set_model_built true self in
  Ok (self, o).

(** [run_opensees_analysis], parts 1 to 5: the model and the analysis
    options.  Returns the solver state and the next free element tag. *)
Definition define_model (self : Env) (damper_floor : Z) (o : Ops E) : result (Ops E * Z) :=
  o ← ops_do Wipe o;
  o ← ops_do (Model 1 1) o;
  o ← for_each_r (Py.range 0 (floor_num self + 1))
        (fun i o =>
           let nodeTag := i + 1 in
           ops_do (Node nodeTag (Py.fmul (Py.float_of_int i) 3%float)) o) o;
  o ← ops_do (Fix 1 1) o;
  let mass_per_floor := 1.0e5%float in
  o ← for_each_r (Py.range 2 (floor_num self + 2))
        (fun nd o => ops_do (Mass nd mass_per_floor) o) o;
  let matTag := 1 in
  let k_floor := 1.0e8%float in
  o ← ops_do (UniaxialMaterialElastic matTag k_floor) o;
  let elementTag := 1 in
  st ← for_each_r (Py.range 1 (floor_num self))
         (fun i '(o, elementTag) =>
            o ← ops_do (ElementTwoNodeLink elementTag (i + 1) (i + 2) matTag 1) o;
            Ok (o, elementTag + 1))
         (o, elementTag);
  let '(o, elementTag) := st in
  st ← (if (1 <=? damper_floor) && (damper_floor <? floor_num self)
        then
          o ← ops_do (ElementTwoNodeLink elementTag damper_floor (damper_floor + 1)
                        matTag 1) o;
          Ok (o, elementTag + 1)
        else Ok (o, elementTag));
  let '(o, elementTag) := st in
  o ← ops_do (TimeSeriesPath 1 (dt self) (acc_data self)) o;
  o ← ops_do (PatternUniformExcitation 1 1 1) o;
  let alphaM := 0%float in
  let betaK := 0%float in
  o ← ops_do (Rayleigh alphaM betaK 0%float 0%float) o;
  o ← ops_do (System "BandGeneral") o;
  o ← ops_do (Numberer "Plain") o;
  o ← ops_do (Constraints "Plain") o;
  o ← ops_do (IntegratorNewmark 0.5%float 0.25%float) o;
  o ← ops_do (Algorithm "Newton") o;
  o ← ops_do (Analysis "Transient") o;
  Ok (o, elementTag).

(** The inner loop of part 6: after a successful step, update the
    recorded displacement of every floor node. *)
Definition record_max (self : Env) (o : Ops E) (max_disps : list float) : list float :=
  Py.for_each (Py.range 2 (floor_num self + 2))
    (fun nd max_disps =>
       let d := ops_nodeDisp nd 1 o in
       let index := nd - 2 in
       if Py.fgt (Py.fabs d) (Py.fabs (Py.getitem max_disps index))
       then Py.setitem max_disps index d
       else max_disps)
    max_disps.

(** The body of that loop, by name. *)
Definition record_body (o : Ops E) (nd : Z) (max_disps : list float) : list float :=
  let d := ops_nodeDisp nd 1 o in
  let index := nd - 2 in
  if Py.fgt (Py.fabs d) (Py.fabs (Py.getitem max_disps index))
  then Py.setitem max_disps index d
  else max_disps.

(** The outer loop of part 6, with [steps] iterations left; a non-zero
    status breaks out of it. *)
Fixpoint time_loop (self : Env) (steps : nat) (o : Ops E) (max_disps : list float)
  : Ops E * list float :=
  match steps with
  | O => (o, max_disps)
  | S steps' =>
      let '(ok, o) := ops_analyze 1 (dt self) o in
      if negb (ok =? 0) then (o, max_disps)
      else time_loop self steps' o (record_max self o max_disps)
  end.

(** Part 7: the largest inter-storey drift ratio. *)
Definition story_drift (max_disps : list float) (i : Z) : float :=
  Py.fdiv (Py.fabs (Py.fsub (Py.getitem max_disps (i + 1)) (Py.getitem max_disps i)))
          3%float.

Definition max_story_drift_loop (self : Env) (max_disps : list float) : float :=
  Py.for_each (Py.range 0 (floor_num self - 1))
    (fun i max_story_drift =>
       let drift := story_drift max_disps i in
       if Py.fgt drift max_story_drift then drift else max_story_drift)
    0%float.

(** [run_opensees_analysis]: the returned pair, and the solver state; an
    exception when the solver refuses a call of the model definition. *)
Definition run_opensees_analysis (self : Env) (damper_floor : Z) (o : Ops E)
  : result ((float * list float) * Ops E) :=
  st ← define_model self damper_floor o;
  let '(o, _) := st in
  let max_disps := Py.zeros (floor_num self) in
  let '(o, max_disps) := time_loop self (Z.to_nat (num_steps self)) o max_disps in
  let max_story_drift := max_story_drift_loop self max_disps in
  let alphavalue := Py.fabs (Py.fsub max_story_drift (code_drift self)) in
  Ok ((alphavalue, max_disps), o).

End Analysis.

(** ** Text: [str(i)] and the format [.6e] *)

Module Fmt.

Definition nl : string := String (Ascii.ascii_of_nat 10) EmptyString.

Definition digit_char (d : Z) : Ascii.ascii := Ascii.ascii_of_nat (48 + Z.to_nat (d mod 10)).

(** The decimal digits of a natural number, most significant first. *)
Fixpoint digits_fuel (fuel : nat) (n : Z) (acc : string) : string :=
  let acc := String (digit_char n) acc in
  match fuel with
  | O => acc
  | S fuel' => if n <? 10 then acc else digits_fuel fuel' (n / 10) acc
  end.

Definition str_nat (n : Z) : string := digits_fuel (Z.to_nat (Z.log2 n)) n ""%string.

(** [str(i)]. *)
Definition str (i : Z) : string :=
  if i <? 0 then "-"%string +:+ str_nat (- i) else str_nat i.

Definition sign_str (s : bool) : string := if s then "-"%string else ""%string.

(** The decimal exponent of the positive rational [num / den]: the [k]
    with [10^k <= num/den < 10^(k+1)]. *)
Fixpoint exp_up (fuel : nat) (num den k : Z) : Z :=
  match fuel with
  | O => k
  | S fuel' => if den * 10 ^ (k + 1) <=? num then exp_up fuel' num den (k + 1) else k
  end.

Fixpoint exp_down (fuel : nat) (num den j : Z) : Z :=
  match fuel with
  | O => j
  | S fuel' => if den <=? num * 10 ^ j then j else exp_down fuel' num den (j + 1)
  end.

Definition decimal_exponent (num den : Z) : Z :=
  if den <=? num
  then exp_up (Z.to_nat (Z.log2 num)) num den 0
  else - exp_down (Z.to_nat (Z.log2 den)) num den 1.

(** [num / den] rounded to an integer, ties to even. *)
Definition round_half_even (num den : Z) : Z :=
  let q := num / den in
  let r := num mod den in
  match 2 * r ?= den with
  | Lt => q
  | Gt => q + 1
  | Eq => if Z.even q then q else q + 1
  end.

(** The seven digits [d.dddddd] of [q]. *)
Definition mantissa_str (q : Z) : string :=
  String (digit_char (q / 1000000))
    ("."%string +:+
     String (digit_char (q / 100000))
     (String (digit_char (q / 10000))
     (String (digit_char (q / 1000))
     (String (digit_char (q / 100))
     (String (digit_char (q / 10))
     (String (digit_char q) ""%string)))))).

(** The exponent field: a sign and at least two digits. *)
Definition exponent_str (k : Z) : string :=
  (if k <? 0 then "-"%string else "+"%string) +:+
  (if Z.abs k <? 10 then "0"%string else ""%string) +:+ str_nat (Z.abs k).

(** The positive value [m * 2^e] with one digit before the point and six
    after it. *)
Definition sci6 (m e : Z) : string :=
  let num := m * 2 ^ Z.max e 0 in
  let den := 2 ^ Z.max (- e) 0 in
  let k := decimal_exponent num den in
  let q := round_half_even (num * 10 ^ Z.max (6 - k) 0) (den * 10 ^ Z.max (k - 6) 0) in
  let '(q, k) := if q =? 10000000 then (1000000, k + 1) else (q, k) in
  mantissa_str q +:+ "e"%string +:+ exponent_str k.

(** [f"{x:.6e}"%string]. *)
Definition format_6e (x : float) : string :=
  match Prim2SF x with
  | S754_nan => "nan"%string
  | S754_infinity s => sign_str s +:+ "inf"%string
  | S754_zero s => sign_str s +:+ "0.000000e+00"%string
  | S754_finite s m e => sign_str s +:+ sci6 (Zpos m) e
  end.

(** Reading a line back: is it [d.dddddd], an ['e'], a sign and two or
    more digits, after an optional minus sign? *)
Definition is_digit (c : Ascii.ascii) : bool :=
  let n := Ascii.nat_of_ascii c in (48 <=? n)%nat && (n <=? 57)%nat.

Definition is_char (n : nat) (c : Ascii.ascii) : bool := (Ascii.nat_of_ascii c =? n)%nat.

Fixpoint all_digits (s : string) : bool :=
  match s with
  | EmptyString => true
  | String c rest => is_digit c && all_digits rest
  end.

Definition is_sci6_unsigned (s : string) : bool :=
  match s with
  | String d0 (String pt (String d1 (String d2 (String d3 (String d4 (String d5
      (String d6 (String e (String sgn expo))))))))) =>
      is_digit d0 && is_char 46 pt && is_digit d1 && is_digit d2 && is_digit d3
      && is_digit d4 && is_digit d5 && is_digit d6 && is_char 101 e
      && (is_char 43 sgn || is_char 45 sgn)
      && (2 <=? String.length expo)%nat && all_digits expo
  | _ => false
  end.

Definition is_sci6 (s : string) : bool :=
  match s with
  | String c rest => if is_char 45 c then is_sci6_unsigned rest else is_sci6_unsigned s
  | EmptyString => false
  end.

(** The digits a line shows before its exponent: its significant digits. *)
Fixpoint significant_digits (s : string) : nat :=
  match s with
  | EmptyString => 0
  | String c rest =>
      if is_char 101 c then 0%nat
      else ((if is_digit c then 1 else 0) + significant_digits rest)%nat
  end.

(** The number of line ends in a text. *)
Fixpoint count_nl (s : string) : nat :=
  match s with
  | EmptyString => 0
  | String c rest => ((if is_char 10 c then 1 else 0) + count_nl rest)%nat
  end.

End Fmt.

(** ** Files *)

(** The working directory: its sub-directories by name, each a map from file
    name to file contents.  It holds no regular file of its own. *)
Abbreviation FileSystem := (gmap string (gmap string string)).

Module Os.

(** [os.path.split]: head and tail of a path at its last ['/']; no head
    when the path has no ['/']. *)
Fixpoint split (p : string) : option string * string :=
  match p with
  | EmptyString => (None, EmptyString)
  | String c rest =>
      match split rest with
      | (Some head, tail) => (Some (String c head), tail)
      | (None, tail) =>
          if Ascii.eqb c (Ascii.ascii_of_nat 47) then (Some EmptyString, tail)
          else (None, String c tail)
      end
  end.

(** [os.path.exists(p)]. *)
Definition path_exists (p : string) (fs : FileSystem) : bool :=
  match split p with
  | (None, d) => bool_decide (is_Some (fs !! d))
  | (Some d, f) => bool_decide (is_Some (fs !! d ≫= (.!! f)))
  end.

(** [os.makedirs(p)] for a directory of the working directory that does
    not exist yet. *)
Definition makedirs (p : string) (fs : FileSystem) : FileSystem :=
  <[p := ∅]> fs.

(** [with open(p, "a") as f: f.write(text)]: the text goes to the end of
    the file, which is created when absent; the directory must exist. *)
Definition append_text (p text : string) (fs : FileSystem) : result FileSystem :=
  match split p with
  | (Some d, f) =>
      match fs !! d with
      | Some files => Ok (<[d := <[f := default EmptyString (files !! f) +:+ text]> files]> fs)
      | None => Raise (FileNotFoundError p)
      end
  | (None, _) => Raise (PermissionError p)
  end.

(** [open(p).read()], when the file exists. *)
Definition read_text (p : string) (fs : FileSystem) : option string :=
  match split p with
  | (Some d, f) => fs !! d ≫= (.!! f)
  | (None, _) => None
  end.

End Os.

(** ** [step] and the log files *)

Record World (E : Type) : Type := MkWorld {
  w_ops : Ops E;
  w_fs : FileSystem
}.
Arguments MkWorld {E} _ _.
Arguments w_ops {E} _.
Arguments w_fs {E} _.

(** What [step] returns; [info] is the empty dict. *)
Record StepReturn : Type := MkStepReturn {
  next_state : list float;
  reward : float;
  done : bool;
  info : list (string * string)
}.

(** The name of a floor's log file. *)
Definition floor_file (floor_index : Z) : string :=
  "floor_disp/floor" +:+ Fmt.str floor_index +:+ "_disp.txt".

(** [_save_floor_disps]. *)
Definition _save_floor_disps (self : Env) (max_disps : list float) (fs : FileSystem)
  : result FileSystem :=
  let fs := if negb (Os.path_exists "floor_disp" fs)
            then Os.makedirs "floor_disp" fs else fs in
  for_each_r (Py.range 0 (floor_num self))
    (fun i fs =>
       let floor_index := i + 1 in
       let filename := floor_file floor_index in
       Os.append_text filename (Fmt.format_6e (Py.getitem max_disps i) +:+ Fmt.nl) fs)
    fs.

Section Step.
Context {E : Type} `{Engine E}.

(** [step]. *)
Definition step (self : Env) (action : Z) (w : World E)
  : result (StepReturn * Env * World E) :=
  let self := set_episode_count (episode_count self + 1) self in
  st ← (if episode_count self mod 10 =? 1
        then build_model self (w_ops w)
        else Ok (self, w_ops w));
  let '(self, o) := st in
  let damper_floor := action + 1 in
  run ← run_opensees_analysis self damper_floor o;
  let '((alphavalue, max_disps), o) := run in
  let reward := Py.fneg alphavalue in
  let self := set_last_alphavalue alphavalue self in
  let next_state := [Py.float32 alphavalue] in
  fs ← _save_floor_disps self max_disps (w_fs w);
  let done := true in
  Ok (MkStepReturn next_state reward done [], self, MkWorld o fs).

(** The first statements of [step]: the episode counter and the rebuild
    every tenth episode. *)
Definition step_prelude (self : Env) (o : Ops E) : result (Env * Ops E) :=
  let self := set_episode_count (episode_count self + 1) self in
  if episode_count self mod 10 =? 1 then build_model self o else Ok (self, o).

(** The environment's part of [train_rl_model]: each episode resets the
    environment and takes one step with the action the policy sampled. *)
Fixpoint episodes (actions : list Z) (self : Env) (w : World E)
  : result (Env * World E) :=
  match actions with
  | [] => Ok (self, w)
  | action :: rest =>
      let '(self, _) := reset self in
      r ← step self action w;
      let '(_, self, w) := r in
      episodes rest self w
  end.

End Step.

(** ** What the analysis sees, step by step *)

Section History.
Context {E : Type} `{Engine E}.

(** The solver states after the steps the time loop accepts: it stops at
    the first non-zero status, or after [steps] steps. *)
Fixpoint successful_states (self : Env) (steps : nat) (o : Ops E) : list (Ops E) :=
  match steps with
  | O => []
  | S steps' =>
      let '(ok, o) := ops_analyze 1 (dt self) o in
      if negb (ok =? 0) then [] else o :: successful_states self steps' o
  end.

(** The solver state after [k] calls of [ops.analyze], and the status the
    next call returns. *)
Fixpoint state_after (self : Env) (k : nat) (o : Ops E) : Ops E :=
  match k with
  | O => o
  | S k' => state_after self k' (snd (ops_analyze 1 (dt self) o))
  end.

Definition status_at (self : Env) (k : nat) (o : Ops E) : Z :=
  fst (ops_analyze 1 (dt self) (state_after self k o)).

(** The displacement history of a node over those steps. *)
Definition node_history (self : Env) (steps : nat) (o : Ops E) (nd : Z) : list float :=
  map (ops_nodeDisp nd 1) (successful_states self steps o).

(** The displacement history of a node in a call of
    [run_opensees_analysis] whose model definition left the solver in the
    state [o]. *)
Definition floor_history (self : Env) (o : Ops E) (nd : Z) : list float :=
  node_history self (Z.to_nat (num_steps self)) o nd.

End History.

(** The update of one entry of [max_disps]: the value kept is the
    displacement itself, replaced when a later one is larger in magnitude. *)
Definition keep_larger (m d : float) : float :=
  if Py.fgt (Py.fabs d) (Py.fabs m) then d else m.

(** An entry of [max_disps] after a history. *)
Definition signed_peak (history : list float) : float :=
  fold_left keep_larger history 0%float.

(** In the words of the specification: the running maximum of the absolute
    displacements, the max-abs reduction of a history. *)
Definition max_abs (history : list float) : float :=
  fold_left (fun m d => if Py.fgt (Py.fabs d) m then Py.fabs d else m) history 0%float.

(** In the words of the specification: the drift ratios of the consecutive
    floor pairs. *)
Definition story_drifts (self : Env) (max_disps : list float) : list float :=
  map (story_drift max_disps) (Py.range 0 (floor_num self - 1)).

(** The always-present links of a ten-floor model: tag, end nodes. *)
Definition inter_floor_links : list (Z * Z * Z) :=
  map (fun i => (i, i + 1, i + 2)) (Py.range 1 10).

(** The calls that define a ten-floor model, after the [Wipe]. *)
Definition model_calls (self : Env) (damper_floor : Z) : list OpsCall :=
  [Model 1 1] ++
  map (fun i => Node (i + 1) (Py.fmul (Py.float_of_int i) 3%float)) (Py.range 0 11) ++
  [Fix 1 1] ++
  map (fun nd => Mass nd 1.0e5%float) (Py.range 2 12) ++
  [UniaxialMaterialElastic 1 1.0e8%float] ++
  map (fun i => ElementTwoNodeLink i (i + 1) (i + 2) 1 1) (Py.range 1 10) ++
  (if (1 <=? damper_floor) && (damper_floor <? 10)
   then [ElementTwoNodeLink 10 damper_floor (damper_floor + 1) 1 1] else []) ++
  [TimeSeriesPath 1 (dt self) (acc_data self); PatternUniformExcitation 1 1 1;
   Rayleigh 0%float 0%float 0%float 0%float; System "BandGeneral"; Numberer "Plain";
   Constraints "Plain"; IntegratorNewmark 0.5%float 0.25%float; Algorithm "Newton";
   Analysis "Transient"].

(** The number of [Wipe] calls in a log. *)
Definition is_wipe (c : OpsCall) : bool :=
  match c with
  | Wipe => true
  | _ => false
  end.

Definition wipes (log : list OpsCall) : nat := length (List.filter is_wipe log).

(** The name of a floor's log file inside [floor_disp], and the line
    [_save_floor_disps] writes for a value. *)
Definition floor_name (floor_index : Z) : string :=
  "floor" +:+ Fmt.str floor_index +:+ "_disp.txt".

Definition log_line (x : float) : string := Fmt.format_6e x +:+ Fmt.nl.

(** The files of [floor_disp] once the lines of the floors [l] are written. *)
Definition files_after (max_disps : list float) (l : list Z) (files : gmap string string)
  : gmap string string :=
  fold_left
    (fun files i =>
       <[floor_name (i + 1) :=
           default EmptyString (files !! floor_name (i + 1))
           +:+ log_line (Py.getitem max_disps i)]> files)
    l files.

(** Keeping the value whose key is largest; the key is the value itself
    (drift ratios) or its absolute value (displacements). *)
Definition keep_by (key : float -> float) (m d : float) : float :=
  if PrimFloat.ltb (key m) (key d) then d else m.

(** ** Notions the proofs use *)

(** A float that is neither zero nor NaN, of sign [s]. *)
Definition nonzero_number (s : bool) (x : spec_float) : Prop :=
  match x with
  | S754_finite s' _ _ | S754_infinity s' => s' = s
  | _ => False
  end.

(** The number of rebuilds among the episodes [1 .. n]. *)
Definition rebuilds_upto (n : Z) : Z := (n + 9) / 10.

(** The tag of a link, and whether it ends at a node. *)
Definition link_tag (l : Z * Z * Z) : Z := fst (fst l).

Definition link_touches (nd : Z) (l : Z * Z * Z) : Prop :=
  snd (fst l) = nd \/ snd l = nd.

(** The number of lines in a floor's log file (none when it does not
    exist). *)
Definition floor_lines (floor_index : Z) (fs : FileSystem) : nat :=
  Fmt.count_nl (default EmptyString (Os.read_text (floor_file floor_index) fs)).

(** ** A scripted engine *)

(** An engine that plays a script: for each coming step its status and the
    displacements of the floor nodes 2, 3, ... after it.  When the script is
    over every step fails.  Like the solver it refuses a path time series
    that has no values or whose time step is not positive, and accepts every
    other call. *)
Module Scripted.

Record t : Type := Mk {
  pending : list (Z * list float);
  disp : list float
}.

#[global] Instance engine : Engine t := {
  eng_accepts c _ :=
    match c with
    | TimeSeriesPath _ dt values =>
        negb (Nat.eqb (length values) 0) && PrimFloat.ltb 0 dt
    | _ => true
    end;
  eng_call c s :=
    match c with
    | Analyze _ _ =>
        match pending s with
        | [] => s
        | (_, d) :: rest => Mk rest d
        end
    | Wipe => Mk (pending s) []
    | _ => s
    end;
  eng_status _ _ s :=
    match pending s with
    | [] => -1
    | (status, _) :: _ => status
    end;
  eng_nodeDisp nd _ s :=
    if nd <? 2 then 0%float else nth (Z.to_nat (nd - 2)) (disp s) 0%float
}.

Definition start (script : list (Z * list float)) : Ops t := MkOps [] (Mk script []).

End Scripted.

(** ** Sample runs *)

(** The scenario of the specification: a record of three samples at
    [dt = 0.02], the default drift limit, and scripted solver outcomes. *)
Module Demo.

Definition record : list float := [0.1; -0.1; 0.05]%float.

Definition env0 : Env := init record default_dt default_code_drift.

(** Three successful steps; the displacements of nodes 2 and 3 are given,
    those of the other floor nodes are zero. *)
Definition world0 : World Scripted.t :=
  MkWorld
    (Scripted.start
       [(0, [-0.5; 0.25]%float); (0, [0.5; -0.3]%float); (0, [0.1; 0.2]%float)])
    ∅.

(** One successful step, then a failing one. *)
Definition world_fail_second : World Scripted.t :=
  MkWorld (Scripted.start [(0, [-0.5; 0.25]%float); (-3, [9; 9]%float)]) ∅.

(** The first step fails. *)
Definition world_fail_first : World Scripted.t :=
  MkWorld (Scripted.start [(-3, [9; 9]%float)]) ∅.

(** An environment built with a negative drift limit. *)
Definition env_negative_limit : Env := init record default_dt (-0.01)%float.

(** An environment built with a drift limit that is not a number. *)
Definition env_nan_limit : Env := init record default_dt nan.


End Demo.

Module FloatFacts.

Lemma pos_compare_cont_eq (p q : positive) : Pos.compare_cont Eq p q = Pos.compare p q.
Proof. reflexivity. Qed.

(** The order of [SFcompare] is transitive. *)
Lemma SFcompare_lt_trans (a b c : spec_float) :
  SFcompare a b = Some Lt -> SFcompare b c = Some Lt -> SFcompare a c = Some Lt.
Proof.
  destruct a as [[]|[]| |[] ma ea], b as [[]|[]| |[] mb eb], c as [[]|[]| |[] mc ec];
    simpl; try congruence; intros Hab Hbc;
    injection Hab as Hab; injection Hbc as Hbc; f_equal;
    rewrite ?pos_compare_cont_eq in *;
    destruct (Z.compare_spec ea eb), (Z.compare_spec eb ec), (Z.compare_spec ea ec);
    try congruence; try lia; subst;
    destruct (Pos.compare_spec ma mb), (Pos.compare_spec mb mc), (Pos.compare_spec ma mc);
    simpl in *; try congruence; try lia.
Qed.

Lemma ltb_trans (a b c : float) :
  PrimFloat.ltb a b = true -> PrimFloat.ltb b c = true -> PrimFloat.ltb a c = true.
Proof.
  rewrite !ltb_spec. unfold SFltb.
  destruct (SFcompare (Prim2SF a) (Prim2SF b)) as [[]|] eqn:Hab; try discriminate.
  destruct (SFcompare (Prim2SF b) (Prim2SF c)) as [[]|] eqn:Hbc; try discriminate.
  now rewrite (SFcompare_lt_trans _ _ _ Hab Hbc).
Qed.

End FloatFacts.

Module FloatRound.
Section Round.
Variables prec emax : Z.
Hypothesis prec_pos : 0 < prec.

Abbreviation emin := (SpecFloat.emin prec emax).
Abbreviation fexp := (SpecFloat.fexp prec emax).

Lemma fexp_ge_emin (z : Z) : emin <= fexp z.
Proof. unfold SpecFloat.fexp. lia. Qed.

Lemma iter_pos_nat {A : Type} (f : A -> A) (p : positive) (x : A) :
  SpecFloat.iter_pos f p x = Nat.iter (Pos.to_nat p) f x.
Proof.
  revert x. induction p as [p IH|p IH|]; intros x; cbn [SpecFloat.iter_pos].
  - rewrite !IH, Pos2Nat.inj_xI.
    replace (S (2 * Pos.to_nat p)) with (Pos.to_nat p + (Pos.to_nat p + 1))%nat by lia.
    rewrite !Nat.iter_add. reflexivity.
  - rewrite !IH, Pos2Nat.inj_xO.
    replace (2 * Pos.to_nat p)%nat with (Pos.to_nat p + Pos.to_nat p)%nat by lia.
    now rewrite Nat.iter_add.
  - reflexivity.
Qed.

(** Shifting a mantissa right by fewer bits than it has leaves a positive
    mantissa. *)
Lemma shr_1_digits (mrs : shr_record) (p : positive) :
  shr_m mrs = Zpos p -> (1 < digits2_pos p)%positive ->
  exists q, shr_m (shr_1 mrs) = Zpos q /\ Pos.succ (digits2_pos q) = digits2_pos p.
Proof.
  destruct mrs as [m r s]. simpl. intros -> Hd.
  destruct p as [q|q|]; simpl in *; try lia; eauto.
Qed.

Lemma shr_iter_digits (n : nat) (mrs : shr_record) (p : positive) :
  shr_m mrs = Zpos p -> (n < Pos.to_nat (digits2_pos p))%nat ->
  exists q, shr_m (Nat.iter n shr_1 mrs) = Zpos q.
Proof.
  revert mrs p. induction n as [|n IH]; intros mrs p Hm Hn.
  - simpl. eauto.
  - rewrite Nat.iter_succ_r.
    destruct (shr_1_digits mrs p Hm) as (q & Hq & Hd); [lia|].
    apply (IH _ q Hq). lia.
Qed.

Lemma shr_fexp_pos (p : positive) (e : Z) (l : location) :
  emin <= e ->
  exists q, shr_m (fst (shr_fexp prec emax (Zpos p) e l)) = Zpos q
            /\ emin <= snd (shr_fexp prec emax (Zpos p) e l).
Proof.
  intros He. unfold shr_fexp, shr. simpl Zdigits2.
  assert (Hrec : shr_m (shr_record_of_loc (Zpos p) l) = Zpos p)
    by (destruct l as [|[]]; reflexivity).
  destruct (fexp (Zpos (digits2_pos p) + e) - e) as [|n|n] eqn:Hn; simpl; eauto.
  rewrite iter_pos_nat.
  destruct (shr_iter_digits (Pos.to_nat n) _ p Hrec) as (q & Hq).
  - unfold SpecFloat.fexp in Hn. lia.
  - exists q. split; [exact Hq|]. rewrite <- Hn.
    pose proof (fexp_ge_emin (Zpos (digits2_pos p) + e)). lia.
Qed.

Lemma round_nearest_even_pos (p : positive) (l : location) :
  exists q, round_nearest_even (Zpos p) l = Zpos q.
Proof.
  destruct l as [|[]]; simpl; eauto.
  destruct p; simpl; eauto.
Qed.

Lemma binary_round_aux_nonzero (s : bool) (p : positive) (e : Z) (l : location) :
  emin <= e -> nonzero_number s (binary_round_aux prec emax s (Zpos p) e l).
Proof.
  intros He. unfold binary_round_aux.
  destruct (shr_fexp_pos p e l He) as (q & Hq & He').
  destruct (shr_fexp prec emax (Zpos p) e l) as [mrs' e']. simpl in Hq, He'.
  rewrite Hq.
  destruct (round_nearest_even_pos q (loc_of_shr_record mrs')) as (q' & ->).
  destruct (shr_fexp_pos q' e' loc_Exact He') as (q'' & Hq'' & _).
  destruct (shr_fexp prec emax (Zpos q') e' loc_Exact) as [mrs'' e'']. simpl in Hq''.
  rewrite Hq''. destruct (e'' <=? emax - prec); reflexivity.
Qed.

Lemma binary_round_nonzero (s : bool) (p : positive) (e : Z) :
  emin <= e -> nonzero_number s (binary_round prec emax s p e).
Proof.
  intros He. unfold binary_round, shl_align.
  destruct (fexp (Zpos (digits2_pos p) + e) - e) eqn:Hd;
    apply binary_round_aux_nonzero; try exact He.
  apply fexp_ge_emin.
Qed.

(** The shape of a rounded result whatever the mantissa. *)
Lemma binary_round_aux_shape (s : bool) (m e : Z) (l : location) :
  match binary_round_aux prec emax s m e l with
  | S754_nan => True
  | S754_zero s' | S754_infinity s' | S754_finite s' _ _ => s' = s
  end.
Proof.
  unfold binary_round_aux.
  destruct (shr_fexp prec emax m e l) as [mrs' e'].
  destruct (shr_fexp prec emax _ e' loc_Exact) as [mrs'' e''].
  destruct (shr_m mrs''); try reflexivity.
  destruct (e'' <=? emax - prec); reflexivity.
Qed.

(** Aligned mantissas. *)
Lemma iter_xO_digits (d m : positive) :
  digits2_pos (Pos.iter xO m d) = (digits2_pos m + d)%positive.
Proof.
  induction d as [|d IH] using Pos.peano_ind.
  - simpl. lia.
  - rewrite Pos.iter_succ. simpl. rewrite IH. lia.
Qed.

Lemma shl_align_digits (m : positive) (e e' : Z) :
  e' <= e ->
  Zpos (digits2_pos (fst (shl_align m e e'))) = Zpos (digits2_pos m) + (e - e').
Proof.
  intros He. unfold shl_align.
  destruct (e' - e) as [|d|d] eqn:Hd; simpl; try lia.
  rewrite iter_xO_digits. lia.
Qed.

Lemma shl_align_same (m : positive) (e : Z) : fst (shl_align m e e) = m.
Proof. unfold shl_align. now rewrite Z.sub_diag. Qed.

Lemma canonical_ge_emin (m : positive) (e : Z) :
  canonical_mantissa prec emax m e = true -> emin <= e.
Proof.
  unfold canonical_mantissa. intros Hc%Z.eqb_eq.
  pose proof (fexp_ge_emin (Zpos (digits2_pos m) + e)). lia.
Qed.

(** Two canonical mantissas that are equal once aligned are the same. *)
Lemma aligned_canonical_eq (mx my : positive) (ex ey : Z) :
  canonical_mantissa prec emax mx ex = true ->
  canonical_mantissa prec emax my ey = true ->
  fst (shl_align mx ex (Z.min ex ey)) = fst (shl_align my ey (Z.min ex ey)) ->
  mx = my /\ ex = ey.
Proof.
  unfold canonical_mantissa. intros Hx%Z.eqb_eq Hy%Z.eqb_eq Heq.
  assert (Hd : Zpos (digits2_pos mx) + ex = Zpos (digits2_pos my) + ey).
  { pose proof (shl_align_digits mx ex (Z.min ex ey) ltac:(lia)) as H1.
    pose proof (shl_align_digits my ey (Z.min ex ey) ltac:(lia)) as H2.
    rewrite Heq in H1. lia. }
  assert (He : ex = ey) by (rewrite Hd in Hx; lia).
  subst ey. rewrite Z.min_id, !shl_align_same in Heq. auto.
Qed.

(** A difference of two finite numbers is zero exactly when they are the
    same number; it is never NaN. *)
Lemma SFsub_finite (sx sy : bool) (mx my : positive) (ex ey : Z) :
  canonical_mantissa prec emax mx ex = true ->
  canonical_mantissa prec emax my ey = true ->
  let r := SFsub prec emax (S754_finite sx mx ex) (S754_finite sy my ey) in
  (sx = sy /\ mx = my /\ ex = ey /\ r = S754_zero false)
  \/ (~ (sx = sy /\ mx = my /\ ex = ey) /\ exists s, nonzero_number s r).
Proof.
  intros Hx Hy. cbn [SFsub]. cbv zeta.
  pose proof (canonical_ge_emin _ _ Hx) as Hex.
  pose proof (canonical_ge_emin _ _ Hy) as Hey.
  set (A := fst (shl_align mx ex (Z.min ex ey))).
  set (B := fst (shl_align my ey (Z.min ex ey))).
  assert (Hsame : sx = sy /\ mx = my /\ ex = ey ->
                  cond_Zopp sx (Zpos A) - cond_Zopp sy (Zpos B) = 0).
  { intros (-> & Hm & He). unfold A, B. subst. lia. }
  destruct (cond_Zopp sx (Zpos A) - cond_Zopp sy (Zpos B)) as [|d|d] eqn:HD.
  - left. assert (sx = sy /\ A = B) as [-> HAB]
      by (destruct sx, sy; simpl in HD; split; try reflexivity; lia).
    destruct (aligned_canonical_eq mx my ex ey Hx Hy HAB) as [-> ->]. auto.
  - right. split; [intros Heq; specialize (Hsame Heq); lia|].
    exists false. apply binary_round_nonzero. lia.
  - right. split; [intros Heq; specialize (Hsame Heq); lia|].
    exists true. apply binary_round_nonzero. lia.
Qed.

End Round.
End FloatRound.

Module FloatFacts2.
Import FloatFacts FloatRound.

Lemma Prim2SF_zero : Prim2SF 0%float = S754_zero false.
Proof. reflexivity. Qed.

Lemma Prim2SF_three : Prim2SF 3%float = S754_finite false 6755399441055744 (-51).
Proof. vm_compute. reflexivity. Qed.

Lemma Prim2SF_infinity : Prim2SF infinity = S754_infinity false.
Proof. reflexivity. Qed.

Lemma prim_canonical (x : float) (s : bool) (m : positive) (e : Z) :
  Prim2SF x = S754_finite s m e -> canonical_mantissa prec emax m e = true.
Proof.
  intros Hx. pose proof (Prim2SF_valid x) as Hv. rewrite Hx in Hv.
  simpl in Hv. unfold bounded in Hv. now apply andb_true_iff in Hv as [Hc _].
Qed.

Lemma SFcompare_refl (x : spec_float) : SFcompare x x <> Some Lt.
Proof.
  destruct x as [[]|[]| |[] m e]; simpl; try congruence;
    rewrite Z.compare_refl, pos_compare_cont_eq, Pos.compare_refl; simpl; congruence.
Qed.

Lemma ltb_irrefl (x : float) : PrimFloat.ltb x x = false.
Proof.
  rewrite ltb_spec. unfold SFltb.
  pose proof (SFcompare_refl (Prim2SF x)).
  destruct (SFcompare (Prim2SF x) (Prim2SF x)) as [[]|]; congruence.
Qed.

Lemma ltb_not_nan (x y : float) :
  PrimFloat.ltb x y = true -> Prim2SF x <> S754_nan /\ Prim2SF y <> S754_nan.
Proof.
  rewrite ltb_spec. unfold SFltb.
  destruct (Prim2SF x) as [| | |]; destruct (Prim2SF y) as [| | |]; simpl;
    try discriminate; split; discriminate.
Qed.

(** [math.isfinite]. *)
Lemma is_finite_spec (x : float) :
  PrimFloat.is_finite x = true ->
  match Prim2SF x with
  | S754_zero _ | S754_finite _ _ _ => True
  | _ => False
  end.
Proof.
  unfold PrimFloat.is_finite, is_nan, is_infinity.
  rewrite !FloatAxioms.eqb_spec, abs_spec, Prim2SF_infinity.
  destruct (Prim2SF x) as [[]|[]| |[] m e]; simpl; try discriminate; auto.
Qed.

(** [-abs(x - c)] against zero, for a number [x] and a finite [c]. *)
Lemma neg_abs_sub_sign (x c : float) :
  Prim2SF x <> S754_nan -> PrimFloat.is_finite c = true ->
  PrimFloat.leb (- abs (x - c)) 0 = true
  /\ PrimFloat.eqb (- abs (x - c)) 0 = PrimFloat.eqb x c.
Proof.
  intros Hx Hc%is_finite_spec.
  rewrite leb_spec, !FloatAxioms.eqb_spec, opp_spec, abs_spec, sub_spec, Prim2SF_zero.
  pose proof (prim_canonical x) as Hcx. pose proof (prim_canonical c) as Hcc.
  unfold SF64sub.
  destruct (Prim2SF x) as [sx|sx| |sx mx ex]; try congruence;
    destruct (Prim2SF c) as [sc|sc| |sc mc ec]; try contradiction.
  - destruct sx, sc; split; reflexivity.
  - destruct sx, sc; split; reflexivity.
  - destruct sx, sc; split; reflexivity.
  - destruct sx, sc; split; reflexivity.
  - destruct sx, sc; split; reflexivity.
  - destruct (SFsub_finite prec emax eq_refl sx sc mx mc ex ec
                (Hcx _ _ _ eq_refl) (Hcc _ _ _ eq_refl))
      as [(-> & -> & -> & ->)|(Hne & s & Hnz)].
    + split; [reflexivity|].
      unfold SFeqb. simpl. destruct sc;
        rewrite Z.compare_refl, pos_compare_cont_eq, Pos.compare_refl; reflexivity.
    + destruct (SFsub prec emax (S754_finite sx mx ex) (S754_finite sc mc ec))
        as [| | |] eqn:Hr; try contradiction; simpl; (split; [reflexivity|]);
        symmetry; unfold SFeqb; simpl;
        destruct sx, sc; try reflexivity;
        rewrite pos_compare_cont_eq;
        destruct (Z.compare_spec ex ec); try reflexivity; subst;
        destruct (Pos.compare_spec mx mc); try reflexivity; subst;
        exfalso; apply Hne; auto.
Qed.

(** A drift ratio [abs(y) / 3.0] that is not above zero is zero, or NaN. *)
Lemma abs_div3_not_pos (y : float) :
  PrimFloat.ltb 0 (abs y / 3) = false ->
  (abs y / 3)%float = 0%float \/ Prim2SF (abs y / 3) = S754_nan.
Proof.
  rewrite ltb_spec, Prim2SF_zero. intros Hlt.
  assert (Hshape : match Prim2SF (abs y / 3) with
                   | S754_nan => True
                   | S754_zero s | S754_infinity s | S754_finite s _ _ => s = false
                   end).
  { rewrite div_spec, abs_spec, Prim2SF_three. unfold SF64div.
    destruct (Prim2SF y) as [sy|sy| |sy my ey]; simpl; auto.
    destruct (SFdiv_core_binary prec emax (Z.pos my) ey 6755399441055744 (-51))
      as [[mz ez] lz].
    apply (binary_round_aux_shape prec emax false mz ez lz). }
  destruct (Prim2SF (abs y / 3)) as [s|s| |s m e] eqn:Hd; auto; subst s;
    try discriminate.
  left. apply Prim2SF_inj. now rewrite Hd, Prim2SF_zero.
Qed.

(** [abs(0.0 - c)] is [abs(c)]. *)
Lemma abs_zero_sub (c : float) : abs (0 - c) = abs c.
Proof.
  apply Prim2SF_inj. rewrite !abs_spec, sub_spec, Prim2SF_zero. unfold SF64sub.
  destruct (Prim2SF c) as [[]|[]| |[] m e]; reflexivity.
Qed.

(** [abs(c) == c] for [c >= 0]. *)
Lemma abs_nonneg (c : float) :
  PrimFloat.leb 0 c = true -> PrimFloat.eqb (abs c) c = true.
Proof.
  rewrite leb_spec, FloatAxioms.eqb_spec, abs_spec, Prim2SF_zero.
  destruct (Prim2SF c) as [[]|[]| |[] m e]; simpl; try discriminate; try reflexivity.
  intros _. unfold SFeqb. simpl.
  now rewrite Z.compare_refl, pos_compare_cont_eq, Pos.compare_refl.
Qed.

Lemma eqb_opp (x y : float) : PrimFloat.eqb (- x) (- y) = PrimFloat.eqb x y.
Proof.
  rewrite !FloatAxioms.eqb_spec, !opp_spec.
  destruct (Prim2SF x) as [[]|[]| |[] mx ex], (Prim2SF y) as [[]|[]| |[] my ey];
    try reflexivity; unfold SFeqb; simpl;
    destruct (ex ?= ey); try reflexivity;
    destruct (Pos.compare_cont Eq mx my); reflexivity.
Qed.

Lemma abs_zero : abs 0 = 0%float.
Proof. reflexivity. Qed.

End FloatFacts2.

(** ** Arrays *)

Lemma getitem_setitem (a : list float) (i j : Z) (v : float) :
  0 <= i -> 0 <= j -> (Z.to_nat j < length a)%nat ->
  Py.getitem (Py.setitem a j v) i = if decide (i = j) then v else Py.getitem a i.
Proof.
  intros Hi Hj Hlen. unfold Py.getitem, Py.setitem. rewrite !nth_lookup.
  case_decide as Hij.
  - subst. now rewrite list_lookup_insert_eq.
  - rewrite list_lookup_insert_ne; [reflexivity|lia].
Qed.

Lemma length_setitem (a : list float) (j : Z) (v : float) :
  length (Py.setitem a j v) = length a.
Proof. apply length_insert. Qed.

Lemma getitem_zeros (n i : Z) : Py.getitem (Py.zeros n) i = 0%float.
Proof.
  unfold Py.getitem, Py.zeros. rewrite nth_lookup.
  destruct (replicate (Z.to_nat n) 0%float !! Z.to_nat i) eqn:Hl; [|reflexivity].
  apply lookup_replicate in Hl as [-> _]. reflexivity.
Qed.

Lemma length_zeros (n : Z) : length (Py.zeros n) = Z.to_nat n.
Proof. apply length_replicate. Qed.

Lemma elem_of_range (lo hi x : Z) : x ∈ Py.range lo hi <-> lo <= x < hi.
Proof. unfold Py.range. rewrite elem_of_seqZ. lia. Qed.

Lemma NoDup_range (lo hi : Z) : NoDup (Py.range lo hi).
Proof. apply NoDup_seqZ. Qed.

(** ** One entry of [max_disps] *)

Section Recording.
Context {E : Type} `{Engine E}.

Lemma record_body_length (o : Ops E) (nd : Z) (max_disps : list float) :
  length (record_body o nd max_disps) = length max_disps.
Proof.
  unfold record_body. cbv zeta. destruct (Py.fgt _ _); [apply length_setitem|reflexivity].
Qed.

Lemma record_body_entry (o : Ops E) (nd : Z) (max_disps : list float) (i : Z) :
  2 <= nd -> (Z.to_nat (nd - 2) < length max_disps)%nat -> 0 <= i ->
  Py.getitem (record_body o nd max_disps) i =
  if decide (i + 2 = nd)
  then keep_larger (Py.getitem max_disps i) (ops_nodeDisp (i + 2) 1 o)
  else Py.getitem max_disps i.
Proof.
  intros Hnd Hlen Hi. unfold record_body, keep_larger. cbv zeta.
  destruct (decide (i + 2 = nd)) as [Heq|Hne].
  - assert (Hi2 : nd - 2 = i) by lia. rewrite Hi2, Heq.
    destruct (Py.fgt _ _); [|reflexivity].
    rewrite getitem_setitem by (try lia; rewrite <- Hi2; exact Hlen).
    now rewrite decide_True.
  - destruct (Py.fgt _ _); [|reflexivity].
    rewrite getitem_setitem by lia. rewrite decide_False by lia. reflexivity.
Qed.

Lemma record_body_entries (o : Ops E) (l : list Z) (max_disps : list float) (i : Z) :
  NoDup l -> Forall (fun nd => 2 <= nd /\ (Z.to_nat (nd - 2) < length max_disps)%nat) l ->
  0 <= i ->
  let r := Py.for_each l (record_body o) max_disps in
  length r = length max_disps
  /\ Py.getitem r i =
     if decide (i + 2 ∈ l)
     then keep_larger (Py.getitem max_disps i) (ops_nodeDisp (i + 2) 1 o)
     else Py.getitem max_disps i.
Proof.
  intros Hnd Hall Hi. cbv zeta. unfold Py.for_each.
  revert max_disps Hall.
  induction l as [|nd l IH]; intros max_disps Hall; cbn [fold_left].
  - split; [reflexivity|]. rewrite decide_False; [reflexivity|apply not_elem_of_nil].
  - apply NoDup_cons in Hnd as [Hnot Hnd].
    apply Forall_cons in Hall as [[Hnd2 Hlen] Hall].
    destruct (IH Hnd (record_body o nd max_disps)) as [IHlen IHget].
    { rewrite record_body_length. exact Hall. }
    rewrite record_body_length in IHlen.
    split; [exact IHlen|]. rewrite IHget, record_body_entry by assumption.
    destruct (decide (i + 2 = nd)) as [->|Hne].
    + rewrite (decide_False (P := nd ∈ l)) by assumption.
      rewrite decide_True by (apply elem_of_cons; now left). reflexivity.
    + destruct (decide (i + 2 ∈ l)) as [Hin|Hnin].
      * rewrite decide_True by (apply elem_of_cons; now right). reflexivity.
      * rewrite decide_False; [reflexivity|].
        intros [Heq|Hin]%elem_of_cons; contradiction.
Qed.

Lemma record_max_unfold (self : Env) (o : Ops E) (max_disps : list float) :
  record_max self o max_disps =
  Py.for_each (Py.range 2 (floor_num self + 2)) (record_body o) max_disps.
Proof. reflexivity. Qed.

Lemma record_max_spec (self : Env) (o : Ops E) (max_disps : list float) (i : Z) :
  length max_disps = Z.to_nat (floor_num self) -> 0 <= i < floor_num self ->
  length (record_max self o max_disps) = length max_disps
  /\ Py.getitem (record_max self o max_disps) i =
     keep_larger (Py.getitem max_disps i) (ops_nodeDisp (i + 2) 1 o).
Proof.
  intros Hlen Hi. rewrite record_max_unfold.
  destruct (record_body_entries o (Py.range 2 (floor_num self + 2)) max_disps i)
    as [Hl Hget]; [apply NoDup_range| |lia|].
  - apply Forall_forall. intros nd Hnd%elem_of_range. lia.
  - split; [exact Hl|]. rewrite Hget. apply decide_True, elem_of_range. lia.
Qed.

Lemma record_max_length (self : Env) (o : Ops E) (max_disps : list float) :
  length max_disps = Z.to_nat (floor_num self) ->
  length (record_max self o max_disps) = length max_disps.
Proof.
  intros Hlen. destruct (Z_lt_le_dec 0 (floor_num self)) as [Hpos|Hneg].
  - apply (record_max_spec self o max_disps 0); [exact Hlen|lia].
  - unfold record_max, Py.range, seqZ.
    replace (Z.to_nat (floor_num self + 2 - 2)) with 0%nat by lia. reflexivity.
Qed.

Lemma record_max_entry (self : Env) (o : Ops E) (max_disps : list float) (i : Z) :
  length max_disps = Z.to_nat (floor_num self) -> 0 <= i < floor_num self ->
  Py.getitem (record_max self o max_disps) i =
  keep_larger (Py.getitem max_disps i) (ops_nodeDisp (i + 2) 1 o).
Proof. intros Hlen Hi. now apply record_max_spec. Qed.

(** The time loop, step by accepted step. *)
Lemma time_loop_states (self : Env) (steps : nat) (o : Ops E) (max_disps : list float) :
  snd (time_loop self steps o max_disps) =
  fold_left (fun md o' => record_max self o' md) (successful_states self steps o) max_disps.
Proof.
  revert o max_disps. induction steps as [|steps IH]; intros o max_disps; simpl.
  - reflexivity.
  - destruct (negb _); [reflexivity|]. simpl. apply IH.
Qed.

Lemma fold_record_max_entry (self : Env) (states : list (Ops E)) (max_disps : list float) (i : Z) :
  length max_disps = Z.to_nat (floor_num self) -> 0 <= i < floor_num self ->
  Py.getitem (fold_left (fun md o' => record_max self o' md) states max_disps) i =
  fold_left keep_larger (map (ops_nodeDisp (i + 2) 1) states) (Py.getitem max_disps i).
Proof.
  intros Hlen Hi. revert max_disps Hlen.
  induction states as [|o states IH]; intros max_disps Hlen; simpl; [reflexivity|].
  rewrite IH by (rewrite record_max_length; assumption).
  now rewrite record_max_entry.
Qed.

Lemma fold_record_max_length (self : Env) (states : list (Ops E)) (max_disps : list float) :
  length max_disps = Z.to_nat (floor_num self) ->
  length (fold_left (fun md o' => record_max self o' md) states max_disps) = length max_disps.
Proof.
  revert max_disps. induction states as [|o states IH]; intros max_disps Hlen; simpl;
    [reflexivity|].
  rewrite IH; rewrite record_max_length; congruence.
Qed.

(** [run_opensees_analysis] is the model definition followed by the
    time loop and the drift computation, which cannot raise. *)
Lemma run_opensees_analysis_eq (self : Env) (damper_floor : Z) (o : Ops E) :
  run_opensees_analysis self damper_floor o =
  st ← define_model self damper_floor o;
  let r := time_loop self (Z.to_nat (num_steps self)) (fst st)
             (Py.zeros (floor_num self)) in
  Ok ((Py.fabs (Py.fsub (max_story_drift_loop self (snd r)) (code_drift self)), snd r),
      fst r).
Proof.
  unfold run_opensees_analysis.
  destruct (define_model self damper_floor o) as [[o0 tag]|e]; [|reflexivity].
  cbn. destruct (time_loop _ _ _ _) as [o1 md]. reflexivity.
Qed.

Lemma run_of_model (self : Env) (damper_floor : Z) (o o0 : Ops E) (tag : Z) :
  define_model self damper_floor o = Ok (o0, tag) ->
  run_opensees_analysis self damper_floor o =
  let r := time_loop self (Z.to_nat (num_steps self)) o0 (Py.zeros (floor_num self)) in
  Ok ((Py.fabs (Py.fsub (max_story_drift_loop self (snd r)) (code_drift self)), snd r),
      fst r).
Proof. intros Hdef. rewrite run_opensees_analysis_eq, Hdef. reflexivity. Qed.

(** A run that returned: its model definition returned, and the rest
    follows from the state it left. *)
Lemma run_inv (self : Env) (damper_floor : Z) (o o' : Ops E)
    (alphavalue : float) (max_disps : list float) :
  run_opensees_analysis self damper_floor o = Ok ((alphavalue, max_disps), o') ->
  exists (o0 : Ops E) (tag : Z),
    define_model self damper_floor o = Ok (o0, tag)
    /\ let r := time_loop self (Z.to_nat (num_steps self)) o0
                  (Py.zeros (floor_num self)) in
       max_disps = snd r
       /\ alphavalue =
          Py.fabs (Py.fsub (max_story_drift_loop self (snd r)) (code_drift self))
       /\ o' = fst r.
Proof.
  rewrite run_opensees_analysis_eq.
  destruct (define_model self damper_floor o) as [[o0 tag]|e]; [|discriminate].
  cbn. intros [= <- <- <-]. exists o0, tag. repeat split; reflexivity.
Qed.

(** Every entry of [max_disps] after the time loop is the fold of
    [keep_larger] over its node's history. *)
Lemma max_disps_entry (self : Env) (o0 : Ops E) (i : Z) :
  0 <= i < floor_num self ->
  Py.getitem
    (snd (time_loop self (Z.to_nat (num_steps self)) o0 (Py.zeros (floor_num self)))) i =
  signed_peak (floor_history self o0 (i + 2)).
Proof.
  intros Hi.
  rewrite time_loop_states, fold_record_max_entry, getitem_zeros;
    [reflexivity|apply length_zeros|exact Hi].
Qed.

Lemma max_disps_loop_length (self : Env) (o0 : Ops E) :
  length (snd (time_loop self (Z.to_nat (num_steps self)) o0 (Py.zeros (floor_num self)))) =
  Z.to_nat (floor_num self).
Proof. rewrite time_loop_states, fold_record_max_length; apply length_zeros. Qed.

End Recording.

(** ** The call log *)

Lemma since_wipe_aux_no_wipe (cur calls : list OpsCall) :
  Forall (fun c => c <> Wipe) calls -> since_wipe_aux cur calls = cur ++ calls.
Proof.
  revert cur. induction calls as [|c calls IH]; intros cur Hall; simpl.
  - now rewrite app_nil_r.
  - apply Forall_cons in Hall as [Hc Hall].
    destruct c; try congruence; rewrite IH by assumption; now rewrite <- app_assoc.
Qed.

Lemma since_wipe_aux_app_wipe (cur before after : list OpsCall) :
  since_wipe_aux cur (before ++ Wipe :: after) = since_wipe_aux [] after.
Proof.
  revert cur. induction before as [|c before IH]; intros cur; simpl.
  - reflexivity.
  - destruct c; apply IH.
Qed.

(** The model after a [Wipe] and calls that do not wipe is those calls. *)
Lemma current_model_after_wipe (before after : list OpsCall) :
  Forall (fun c => c <> Wipe) after ->
  current_model (before ++ Wipe :: after) = after.
Proof.
  intros Hall. unfold current_model.
  now rewrite since_wipe_aux_app_wipe, since_wipe_aux_no_wipe.
Qed.

Section Logs.
Context {E : Type} `{Engine E}.

Lemma ops_log_record (c : OpsCall) (o : Ops E) :
  ops_log (ops_record c o) = ops_log o ++ [c].
Proof. reflexivity. Qed.

(** The time loop only steps the analysis. *)
Lemma time_loop_log (self : Env) (steps : nat) (o : Ops E) (max_disps : list float) :
  exists k : nat,
    (k <= steps)%nat /\
    ops_log (fst (time_loop self steps o max_disps)) =
    ops_log o ++ replicate k (Analyze 1 (dt self)).
Proof.
  revert o max_disps. induction steps as [|steps IH]; intros o max_disps; simpl.
  - exists 0%nat. split; [lia|]. now rewrite app_nil_r.
  - destruct (negb _).
    + exists 1%nat. split; [lia|]. reflexivity.
    + destruct (IH (ops_record (Analyze 1 (dt self)) o)
                  (record_max self (ops_record (Analyze 1 (dt self)) o) max_disps))
        as (k & Hk & Hlog).
      exists (S k). split; [lia|]. rewrite Hlog, ops_log_record, <- app_assoc. reflexivity.
Qed.

(** *** Sequences of calls that may raise *)

Lemma bind_ext {A B : Type} (m : result A) (f g : A -> result B) :
  (forall a, f a = g a) -> m ≫= f = m ≫= g.
Proof. intros Hfg. destruct m as [a|e]; [apply Hfg|reflexivity]. Qed.

Lemma bind_assoc {A B C : Type} (m : result A) (f : A -> result B) (g : B -> result C) :
  (m ≫= f) ≫= g = m ≫= (fun a => f a ≫= g).
Proof. destruct m as [a|e]; reflexivity. Qed.

Lemma ops_do_list_cons_bind {B : Type} (c : OpsCall) (l : list OpsCall) (o : Ops E)
    (k : Ops E -> result B) :
  ops_do_list (c :: l) o ≫= k = ops_do c o ≫= (fun o1 => ops_do_list l o1 ≫= k).
Proof. unfold ops_do_list. cbn [for_each_r]. apply bind_assoc. Qed.

Lemma ops_do_list_nil_bind {B : Type} (o : Ops E) (k : Ops E -> result B) :
  ops_do_list [] o ≫= k = k o.
Proof. reflexivity. Qed.

Lemma ops_do_list_app (l1 l2 : list OpsCall) (o : Ops E) :
  ops_do_list (l1 ++ l2) o = ops_do_list l1 o ≫= ops_do_list l2.
Proof.
  unfold ops_do_list. revert o. induction l1 as [|c l1 IH]; intros o; cbn [app for_each_r].
  - reflexivity.
  - rewrite bind_assoc. apply bind_ext. exact IH.
Qed.

Lemma ops_do_list_app_bind {B : Type} (l1 l2 : list OpsCall) (o : Ops E)
    (k : Ops E -> result B) :
  ops_do_list (l1 ++ l2) o ≫= k = ops_do_list l1 o ≫= (fun o1 => ops_do_list l2 o1 ≫= k).
Proof. rewrite ops_do_list_app. apply bind_assoc. Qed.

Lemma for_each_r_ops {A : Type} (f : A -> OpsCall) (l : list A) (o : Ops E) :
  for_each_r l (fun x o => ops_do (f x) o) o = ops_do_list (map f l) o.
Proof.
  unfold ops_do_list. revert o. induction l as [|x l IH]; intros o; cbn [for_each_r map].
  - reflexivity.
  - apply bind_ext. exact IH.
Qed.

(** The loop that chains the floors: its calls and the next element tag. *)
Lemma link_loop_calls (l : list Z) (o : Ops E) (tag : Z) :
  for_each_r l
    (fun i '(o, elementTag) =>
       o ← ops_do (ElementTwoNodeLink elementTag (i + 1) (i + 2) 1 1) o;
       Ok (o, elementTag + 1))
    (o, tag) =
  o' ← ops_do_list
         (zip_with (fun i k => ElementTwoNodeLink k (i + 1) (i + 2) 1 1) l
            (seqZ tag (Z.of_nat (length l)))) o;
  Ok (o', tag + Z.of_nat (length l)).
Proof.
  revert o tag. induction l as [|i l IH]; intros o tag.
  - cbn. now rewrite Z.add_0_r.
  - cbn [for_each_r length]. rewrite Nat2Z.inj_succ, (seqZ_cons tag) by lia.
    replace (Z.pred (Z.succ (Z.of_nat (length l)))) with (Z.of_nat (length l)) by lia.
    cbn [zip_with]. rewrite ops_do_list_cons_bind, bind_assoc.
    apply bind_ext. intros o1. cbn. rewrite IH.
    replace (Z.succ tag) with (tag + 1) by lia.
    replace (tag + 1 + Z.of_nat (length l)) with (tag + Z.succ (Z.of_nat (length l)))
      by lia.
    reflexivity.
Qed.

Lemma ops_do_inv (c : OpsCall) (o o1 : Ops E) :
  ops_do c o = Ok o1 -> o1 = ops_record c o.
Proof.
  unfold ops_do. destruct (eng_accepts c (ops_engine o)); [|discriminate].
  now intros [= <-].
Qed.

(** Calls that returned were carried out, in order. *)
Lemma ops_do_list_ok (calls : list OpsCall) (o o' : Ops E) :
  ops_do_list calls o = Ok o' ->
  ops_log o' = ops_log o ++ calls
  /\ o' = fold_left (fun o c => ops_record c o) calls o.
Proof.
  unfold ops_do_list. revert o. induction calls as [|c calls IH]; intros o; cbn [for_each_r].
  - intros [= <-]. now rewrite app_nil_r.
  - destruct (ops_do c o) as [o1|e] eqn:Hdo; cbn; [|discriminate].
    apply ops_do_inv in Hdo as ->. intros Hrest. destruct (IH _ Hrest) as [Hlog Hstate].
    rewrite Hlog, ops_log_record, <- app_assoc. split; [reflexivity|exact Hstate].
Qed.

Lemma range_1_10 : Py.range 1 10 = [1; 2; 3; 4; 5; 6; 7; 8; 9].
Proof. reflexivity. Qed.

(** The model definition issues [Wipe] and the calls of [model_calls], in
    that order, and raises where the first of them is refused. *)
Lemma define_model_calls (self : Env) (damper_floor : Z) (o : Ops E) :
  floor_num self = 10 ->
  define_model self damper_floor o =
  o' ← ops_do_list (Wipe :: model_calls self damper_floor) o;
  Ok (o', if (1 <=? damper_floor) && (damper_floor <? 10) then 11 else 10).
Proof.
  intros Hfn. unfold define_model, model_calls. rewrite Hfn. cbv zeta.
  change (10 + 1) with 11. change (10 + 2) with 12.
  rewrite ops_do_list_cons_bind. apply bind_ext. intros o1.
  cbn [app]. rewrite ops_do_list_cons_bind. apply bind_ext. intros o2.
  rewrite ops_do_list_app_bind,
    (for_each_r_ops (fun i => Node (i + 1) (Py.fmul (Py.float_of_int i) 3%float))).
  apply bind_ext. intros o3.
  cbn [app]. rewrite ops_do_list_cons_bind. apply bind_ext. intros o4.
  rewrite ops_do_list_app_bind, (for_each_r_ops (fun nd => Mass nd 1.0e5%float)).
  apply bind_ext. intros o5.
  cbn [app]. rewrite ops_do_list_cons_bind. apply bind_ext. intros o6.
  rewrite ops_do_list_app_bind, link_loop_calls, bind_assoc.
  change (zip_with _ (Py.range 1 10) _)
    with (map (fun i => ElementTwoNodeLink i (i + 1) (i + 2) 1 1) (Py.range 1 10)).
  apply bind_ext. intros o7. cbn [mbind result_bind].
  change (1 + Z.of_nat (length (Py.range 1 10))) with 10.
  destruct ((1 <=? damper_floor) && (damper_floor <? 10)).
  - rewrite ops_do_list_app_bind. cbn [app]. rewrite ops_do_list_cons_bind, bind_assoc.
    apply bind_ext. intros o8. cbn [mbind result_bind]. change (10 + 1) with 11.
    rewrite ops_do_list_nil_bind.
    repeat (rewrite ops_do_list_cons_bind; apply bind_ext; intros ?).
    reflexivity.
  - cbn [app mbind result_bind].
    repeat (rewrite ops_do_list_cons_bind; apply bind_ext; intros ?).
    reflexivity.
Qed.

Lemma define_model_log (self : Env) (damper_floor : Z) (o o0 : Ops E) (tag : Z) :
  floor_num self = 10 ->
  define_model self damper_floor o = Ok (o0, tag) ->
  ops_log o0 = ops_log o ++ Wipe :: model_calls self damper_floor.
Proof.
  intros Hfn. rewrite define_model_calls by assumption.
  destruct (ops_do_list _ o) as [o'|e] eqn:Hcalls; [|discriminate].
  cbn. intros [= <- _]. apply (ops_do_list_ok _ _ _ Hcalls).
Qed.

Lemma model_calls_no_wipe (self : Env) (damper_floor : Z) :
  Forall (fun c => c <> Wipe) (model_calls self damper_floor).
Proof.
  unfold model_calls.
  repeat (apply Forall_app; split);
    try (apply Forall_forall; intros c (x & -> & _)%list_elem_of_fmap; discriminate);
    try (destruct ((1 <=? damper_floor) && (damper_floor <? 10)));
    repeat (apply Forall_cons; split; [discriminate|]); apply Forall_nil; exact I.
Qed.

Lemma model_calls_links (self : Env) (damper_floor : Z) :
  omap link_of (model_calls self damper_floor) =
  inter_floor_links ++
  (if (1 <=? damper_floor) && (damper_floor <? 10)
   then [(10, damper_floor, damper_floor + 1)] else []).
Proof.
  unfold model_calls.
  destruct ((1 <=? damper_floor) && (damper_floor <? 10)); reflexivity.
Qed.

(** The links of the model that [run_opensees_analysis] leaves in [ops]. *)
Lemma run_model_links (self : Env) (damper_floor : Z) (o o' : Ops E)
    (r : float * list float) :
  floor_num self = 10 ->
  run_opensees_analysis self damper_floor o = Ok (r, o') ->
  model_links (ops_log o') =
  inter_floor_links ++
  (if (1 <=? damper_floor) && (damper_floor <? 10)
   then [(10, damper_floor, damper_floor + 1)] else []).
Proof.
  intros Hfn Hrun. destruct r as [alphavalue max_disps].
  apply run_inv in Hrun as (o0 & tag & Hdef & Hrest). cbv zeta in Hrest.
  destruct Hrest as (_ & _ & ->).
  destruct (time_loop_log self (Z.to_nat (num_steps self)) o0 (Py.zeros (floor_num self)))
    as (k & _ & ->).
  rewrite (define_model_log self damper_floor o o0 tag Hfn Hdef).
  unfold model_links. rewrite <- app_assoc. cbn [app].
  rewrite current_model_after_wipe.
  - rewrite omap_app, model_calls_links.
    replace (omap link_of (replicate k (Analyze 1 (dt self)))) with (@nil (Z * Z * Z)).
    + now rewrite app_nil_r.
    + clear. induction k as [|k IH]; [reflexivity|exact IH].
  - apply Forall_app. split; [apply model_calls_no_wipe|].
    apply Forall_forall. intros c [-> _]%elem_of_replicate. discriminate.
Qed.

End Logs.

(** C1: in a ten-floor environment the model that [run_opensees_analysis]
    builds has the nine inter-floor [twoNodeLink] elements and, for
    [damper_floor] in 1..9, exactly one more between the nodes
    [damper_floor] and [damper_floor + 1]: ten link elements.  For
    [damper_floor = 10] (and any other value outside 1..9) no damper element
    is added: nine link elements; the function returns as usual. *)
Theorem link_elements_of_built_model
    (E : Type) (Eng : Engine E) (self : Env) (damper_floor : Z) (o o' : Ops E)
    (r : float * list float) :
  floor_num self = 10 ->
  run_opensees_analysis self damper_floor o = Ok (r, o') ->
  let links := model_links (ops_log o') in
  (1 <= damper_floor <= 9 ->
     links = inter_floor_links ++ [(10, damper_floor, damper_floor + 1)]
     /\ length links = 10%nat)
  /\ (damper_floor = 10 -> links = inter_floor_links /\ length links = 9%nat)
  /\ (~ 1 <= damper_floor <= 9 -> links = inter_floor_links /\ length links = 9%nat).
Proof.
  intros Hfn Hrun links. unfold links.
  rewrite (run_model_links self damper_floor o o' r Hfn Hrun).
  split; [|split].
  - intros Hd. replace ((1 <=? damper_floor) && (damper_floor <? 10)) with true by lia.
    split; reflexivity.
  - intros ->. split; reflexivity.
  - intros Hd. replace ((1 <=? damper_floor) && (damper_floor <? 10)) with false by lia.
    split; reflexivity.
Qed.

Import FloatFacts FloatFacts2.

(** ** Keeping the larger of two floats *)

Lemma SFcompare_lt_cases (a b c : spec_float) :
  SFcompare a c = Some Lt -> b <> S754_nan ->
  SFcompare a b = Some Lt \/ SFcompare b c = Some Lt.
Proof.
  destruct a as [[]|[]| |[] ma ea], b as [[]|[]| |[] mb eb], c as [[]|[]| |[] mc ec];
    simpl; try congruence; auto; intros Hac _;
    injection Hac as Hac;
    change (PosDef.Pos.compare_cont Eq) with Pos.compare in *;
    destruct (Z.compare_spec ea eb), (Z.compare_spec eb ec), (Z.compare_spec ea ec);
    try congruence; try lia; auto; subst;
    destruct (Pos.compare_spec ma mb), (Pos.compare_spec mb mc), (Pos.compare_spec ma mc);
    simpl in *; try congruence; try lia; auto.
Qed.

Lemma ltb_cases (a b c : float) :
  PrimFloat.ltb a c = true -> Prim2SF b <> S754_nan ->
  PrimFloat.ltb a b = true \/ PrimFloat.ltb b c = true.
Proof.
  rewrite !ltb_spec. unfold SFltb. intros Hac Hb.
  destruct (SFcompare (Prim2SF a) (Prim2SF c)) as [[]|] eqn:Hc; try discriminate.
  destruct (SFcompare_lt_cases _ _ _ Hc Hb) as [-> | ->]; auto.
Qed.

Section KeepMax.
Variable key : float -> float.

Lemma fold_keep_by (history : list float) (m0 : float) :
  Prim2SF (key m0) <> S754_nan ->
  let r := fold_left (keep_by key) history m0 in
  (r = m0 \/ r ∈ history)
  /\ Forall (fun d => PrimFloat.ltb (key r) (key d) = false) history
  /\ PrimFloat.ltb (key r) (key m0) = false
  /\ Prim2SF (key r) <> S754_nan.
Proof.
  cbv zeta. revert m0. induction history as [|d history IH]; intros m0 Hm0;
    cbn [fold_left].
  - repeat split; auto using ltb_irrefl.
  - assert (Hm1 : Prim2SF (key (keep_by key m0 d)) <> S754_nan).
    { unfold keep_by. destruct (PrimFloat.ltb (key m0) (key d)) eqn:Hlt; [|exact Hm0].
      now apply ltb_not_nan in Hlt. }
    destruct (IH _ Hm1) as (Hin & Hall & Hacc & Hnan).
    set (r := fold_left (keep_by key) history (keep_by key m0 d)) in *.
    assert (Hcases : keep_by key m0 d = d /\ PrimFloat.ltb (key m0) (key d) = true
                     \/ keep_by key m0 d = m0 /\ PrimFloat.ltb (key m0) (key d) = false).
    { unfold keep_by. destruct (PrimFloat.ltb (key m0) (key d)); auto. }
    repeat split.
    + destruct Hin as [Hin|Hin]; [|right; now apply elem_of_cons; right].
      destruct Hcases as [[Hk _]|[Hk _]]; rewrite Hin, Hk; [right|left; reflexivity].
      apply elem_of_cons. now left.
    + apply Forall_cons. split; [|exact Hall].
      destruct Hcases as [[Hk _]|[Hk Hlt]]; rewrite Hk in Hacc; [exact Hacc|].
      destruct (PrimFloat.ltb (key r) (key d)) eqn:Hrd; [|reflexivity].
      destruct (ltb_cases _ (key m0) _ Hrd Hm0) as [Hc|Hc]; congruence.
    + destruct Hcases as [[Hk Hlt]|[Hk _]]; rewrite Hk in Hacc; [|exact Hacc].
      destruct (PrimFloat.ltb (key r) (key m0)) eqn:Hrm; [|reflexivity].
      pose proof (ltb_trans _ _ _ Hrm Hlt). congruence.
    + exact Hnan.
Qed.

End KeepMax.

Lemma keep_larger_keep_by (m d : float) : keep_larger m d = keep_by PrimFloat.abs m d.
Proof. reflexivity. Qed.

Lemma signed_peak_keep_by (history : list float) :
  signed_peak history = fold_left (keep_by PrimFloat.abs) history 0%float.
Proof. reflexivity. Qed.

(** The magnitude of a recorded entry is the max-abs reduction. *)
Lemma abs_signed_peak (history : list float) :
  Py.fabs (signed_peak history) = max_abs history.
Proof.
  unfold signed_peak, max_abs.
  change 0%float with (Py.fabs 0%float) at 2.
  generalize 0%float as m. induction history as [|d history IH]; intros m; cbn [fold_left].
  - reflexivity.
  - rewrite IH. f_equal. unfold keep_larger, Py.fgt.
    destruct (PrimFloat.ltb (Py.fabs m) (Py.fabs d)); reflexivity.
Qed.

Lemma signed_peak_spec (history : list float) :
  (signed_peak history = 0%float \/ signed_peak history ∈ history)
  /\ Forall (fun d => Py.fgt (Py.fabs d) (Py.fabs (signed_peak history)) = false) history.
Proof.
  rewrite signed_peak_keep_by.
  destruct (fold_keep_by PrimFloat.abs history 0%float) as (Hin & Hall & _ & _).
  - rewrite abs_zero, Prim2SF_zero. discriminate.
  - split; assumption.
Qed.

Lemma Forall_or_Exists {A : Type} (P Q : A -> Prop) (l : list A) :
  Forall (fun x => P x \/ Q x) l -> Exists P l \/ Forall Q l.
Proof.
  induction 1 as [|x l [HP|HQ] _ [IH|IH]].
  - right. constructor.
  - left. now constructor.
  - left. now constructor.
  - left. now apply Exists_cons_tl.
  - right. now constructor.
Qed.

(** ** The largest drift ratio *)

Lemma for_each_map {S A B : Type} (f : A -> B) (body : B -> S -> S) (l : list A) (s : S) :
  Py.for_each l (fun x s => body (f x) s) s = fold_left (fun s y => body y s) (map f l) s.
Proof.
  unfold Py.for_each. revert s. induction l as [|x l IH]; intros s; cbn; auto.
Qed.

Lemma max_story_drift_loop_fold (self : Env) (max_disps : list float) :
  max_story_drift_loop self max_disps =
  fold_left (keep_by (fun x => x)) (story_drifts self max_disps) 0%float.
Proof.
  unfold max_story_drift_loop, story_drifts.
  apply (for_each_map (story_drift max_disps)
           (fun drift m => if Py.fgt drift m then drift else m)).
Qed.

Lemma story_drift_not_pos (max_disps : list float) (i : Z) :
  PrimFloat.ltb 0 (story_drift max_disps i) = false ->
  story_drift max_disps i = 0%float \/ Prim2SF (story_drift max_disps i) = S754_nan.
Proof. apply abs_div3_not_pos. Qed.

Lemma max_story_drift_spec (self : Env) (max_disps : list float) :
  let m := max_story_drift_loop self max_disps in
  let drifts := story_drifts self max_disps in
  Forall (fun d => Py.fgt d m = false) drifts
  /\ (m ∈ drifts \/ m = 0%float /\ Forall (fun d => Prim2SF d = S754_nan) drifts)
  /\ Prim2SF m <> S754_nan.
Proof.
  cbv zeta. rewrite max_story_drift_loop_fold.
  destruct (fold_keep_by (fun x => x) (story_drifts self max_disps) 0%float)
    as (Hin & Hall & _ & Hnan).
  - rewrite Prim2SF_zero. discriminate.
  - split; [exact Hall|]. split; [|exact Hnan].
    destruct Hin as [Hzero|Hin]; [|now left].
    set (m := fold_left _ _ _) in *.
    assert (Hcase : Forall (fun d => d = 0%float \/ Prim2SF d = S754_nan)
                      (story_drifts self max_disps)).
    { rewrite Forall_forall in Hall |- *. intros d Hd.
      specialize (Hall d Hd). rewrite Hzero in Hall.
      unfold story_drifts in Hd. apply list_elem_of_fmap in Hd as (i & -> & Hi).
      now apply story_drift_not_pos. }
    apply Forall_or_Exists in Hcase as [Hex|Hallnan].
    + left. apply Exists_exists in Hex as (d & Hd & ->). now rewrite Hzero.
    + right. split; assumption.
Qed.

(** ** The text of a log line *)

Module FmtFacts.
Import Fmt.

Ltac bool_to_prop :=
  repeat match goal with
    | H : _ && _ = true |- _ => apply andb_true_iff in H as [? ?]
    | H : _ || _ = true |- _ => apply orb_true_iff in H
    | H : (_ <=? _)%nat = true |- _ => apply Nat.leb_le in H
    | H : (_ =? _)%nat = true |- _ => apply Nat.eqb_eq in H
    end.

Lemma append_cons (c : Ascii.ascii) (s t : string) :
  String c s +:+ t = String c (s +:+ t).
Proof. reflexivity. Qed.

Lemma append_nil (t : string) : ""%string +:+ t = t.
Proof. reflexivity. Qed.

Ltac norm_append := repeat (rewrite append_cons || rewrite append_nil).

Lemma is_digit_digit_char (d : Z) : is_digit (digit_char d) = true.
Proof.
  unfold digit_char. pose proof (Z.mod_pos_bound d 10 ltac:(lia)) as Hr.
  generalize dependent (d mod 10). intros r Hr.
  assert (Hcases : r = 0 \/ r = 1 \/ r = 2 \/ r = 3 \/ r = 4 \/ r = 5 \/ r = 6
                   \/ r = 7 \/ r = 8 \/ r = 9) by lia.
  repeat (destruct Hcases as [->|Hcases]; [reflexivity|]). subst. reflexivity.
Qed.

Lemma digit_not_char (c : Ascii.ascii) (n : nat) :
  is_digit c = true -> (n < 48 \/ 57 < n)%nat -> is_char n c = false.
Proof.
  unfold is_digit, is_char. intros Hd Hn. bool_to_prop.
  apply Nat.eqb_neq. lia.
Qed.

Lemma char_not_digit (c : Ascii.ascii) (n : nat) :
  is_char n c = true -> (n < 48 \/ 57 < n)%nat -> is_digit c = false.
Proof.
  unfold is_digit, is_char. intros Hc Hn. bool_to_prop.
  apply andb_false_iff. rewrite !Nat.leb_gt. lia.
Qed.

Lemma char_not_char (c : Ascii.ascii) (n k : nat) :
  is_char n c = true -> n <> k -> is_char k c = false.
Proof.
  unfold is_char. intros Hc Hn. bool_to_prop. apply Nat.eqb_neq. lia.
Qed.

Lemma digits_fuel_all_digits (fuel : nat) (n : Z) (acc : string) :
  all_digits acc = true -> all_digits (digits_fuel fuel n acc) = true.
Proof.
  revert n acc. induction fuel as [|fuel IH]; intros n acc Hacc; cbn.
  - now rewrite is_digit_digit_char.
  - destruct (n <? 10).
    + cbn. now rewrite is_digit_digit_char.
    + apply IH. cbn. now rewrite is_digit_digit_char.
Qed.

Lemma digits_fuel_length (fuel : nat) (n : Z) (acc : string) :
  (String.length acc < String.length (digits_fuel fuel n acc))%nat.
Proof.
  revert n acc. induction fuel as [|fuel IH]; intros n acc; cbn.
  - lia.
  - destruct (n <? 10); [cbn; lia|].
    specialize (IH (n / 10) (String (digit_char n) acc)). cbn in IH. lia.
Qed.

Lemma digits_fuel_length2 (fuel : nat) (n : Z) (acc : string) :
  10 <= n -> (0 < fuel)%nat ->
  (String.length acc + 2 <= String.length (digits_fuel fuel n acc))%nat.
Proof.
  intros Hn Hfuel. destruct fuel as [|fuel]; [lia|]. cbn.
  replace (n <? 10) with false by lia.
  pose proof (digits_fuel_length fuel (n / 10) (String (digit_char n) acc)) as Hl.
  cbn in Hl. lia.
Qed.

Lemma str_nat_all_digits (n : Z) : all_digits (str_nat n) = true.
Proof. now apply digits_fuel_all_digits. Qed.

Lemma str_nat_length2 (n : Z) : 10 <= n -> (2 <= String.length (str_nat n))%nat.
Proof.
  intros Hn. unfold str_nat.
  apply (digits_fuel_length2 _ n ""%string Hn).
  pose proof (Z.log2_le_mono 10 n Hn) as Hlog. change (Z.log2 10) with 3 in Hlog. lia.
Qed.

(** The exponent field is a sign and at least two digits. *)
Lemma exponent_str_shape (k : Z) :
  exists (sgn : Ascii.ascii) (expo : string),
    exponent_str k = String sgn expo
    /\ (is_char 43 sgn || is_char 45 sgn) = true
    /\ (2 <= String.length expo)%nat
    /\ all_digits expo = true.
Proof.
  unfold exponent_str.
  exists (if k <? 0 then Ascii.ascii_of_nat 45 else Ascii.ascii_of_nat 43).
  exists ((if Z.abs k <? 10 then "0"%string else ""%string) +:+ str_nat (Z.abs k)).
  split; [destruct (k <? 0); reflexivity|].
  split; [destruct (k <? 0); reflexivity|].
  destruct (Z.abs k <? 10) eqn:Hk.
  - norm_append. cbn [String.length all_digits].
    split; [|rewrite str_nat_all_digits; reflexivity].
    pose proof (digits_fuel_length (Z.to_nat (Z.log2 (Z.abs k))) (Z.abs k) ""%string) as Hl.
    unfold str_nat. cbn [String.length] in Hl. lia.
  - norm_append. split; [apply str_nat_length2; lia|apply str_nat_all_digits].
Qed.

Lemma sci6_shape (m e : Z) : is_sci6_unsigned (sci6 m e) = true.
Proof.
  unfold sci6.
  destruct (if _ =? 10000000 then _ else _) as [q k].
  destruct (exponent_str_shape k) as (sgn & expo & -> & Hsgn & Hlen & Hdig).
  unfold mantissa_str. norm_append. cbn [is_sci6_unsigned].
  rewrite !is_digit_digit_char, Hsgn, Hdig.
  apply Nat.leb_le in Hlen. rewrite Hlen. reflexivity.
Qed.

Lemma is_sci6_signed (s : bool) (body : string) :
  is_sci6_unsigned body = true -> is_sci6 (sign_str s +:+ body) = true.
Proof.
  intros Hbody. destruct s; cbn [sign_str]; norm_append; [exact Hbody|].
  destruct body as [|c rest]; [discriminate|]. cbn [is_sci6].
  assert (Hc : is_digit c = true).
  { destruct rest as [|? [|? [|? [|? [|? [|? [|? [|? [|? ?]]]]]]]]]; try discriminate.
    cbn [is_sci6_unsigned] in Hbody. rewrite !andb_true_iff in Hbody. tauto. }
  rewrite (digit_not_char c 45 Hc) by lia. exact Hbody.
Qed.

(** A finite value is written as [d.dddddd], ['e'], a sign and at least
    two digits, after a minus sign when it is negative. *)
Lemma format_6e_shape (x : float) :
  Py.isfinite x = true -> is_sci6 (format_6e x) = true.
Proof.
  intros Hfin%FloatFacts2.is_finite_spec. unfold format_6e.
  destruct (Prim2SF x) as [s|s| |s m e]; try contradiction.
  - destruct s; reflexivity.
  - apply is_sci6_signed, sci6_shape.
Qed.

(** Such a line shows seven significant digits. *)
Lemma is_sci6_unsigned_digits (s : string) :
  is_sci6_unsigned s = true -> significant_digits s = 7%nat.
Proof.
  destruct s as [|d0 [|pt [|d1 [|d2 [|d3 [|d4 [|d5 [|d6 [|e [|sgn expo]]]]]]]]]];
    try discriminate.
  cbn [is_sci6_unsigned]. rewrite !andb_true_iff.
  intros (((((((((((H0 & Hpt) & H1) & H2) & H3) & H4) & H5) & H6) & He) & _) & _) & _).
  cbn [significant_digits].
  rewrite H0, H1, H2, H3, H4, H5, H6, He.
  rewrite (digit_not_char d0 101 H0), (digit_not_char d1 101 H1),
    (digit_not_char d2 101 H2), (digit_not_char d3 101 H3),
    (digit_not_char d4 101 H4), (digit_not_char d5 101 H5),
    (digit_not_char d6 101 H6) by lia.
  rewrite (char_not_digit pt 46 Hpt), (char_not_char pt 46 101 Hpt) by lia.
  reflexivity.
Qed.

Lemma is_sci6_digits (s : string) : is_sci6 s = true -> significant_digits s = 7%nat.
Proof.
  destruct s as [|c rest]; [discriminate|]. cbn [is_sci6].
  destruct (is_char 45 c) eqn:Hc; [|apply is_sci6_unsigned_digits].
  intros H. cbn [significant_digits].
  rewrite (char_not_char c 45 101 Hc), (char_not_digit c 45 Hc) by lia.
  now apply is_sci6_unsigned_digits.
Qed.

(** A formatted value holds no line end. *)
Lemma count_nl_app (a b : string) : count_nl (a +:+ b) = (count_nl a + count_nl b)%nat.
Proof.
  induction a as [|c a IH]; norm_append; cbn [count_nl]; [reflexivity|].
  rewrite IH. lia.
Qed.

Lemma all_digits_count_nl (s : string) : all_digits s = true -> count_nl s = 0%nat.
Proof.
  induction s as [|c s IH]; cbn; [reflexivity|].
  intros [Hc Hs]%andb_true_iff. rewrite (digit_not_char c 10 Hc) by lia. now apply IH.
Qed.

Lemma sci6_count_nl (m e : Z) : count_nl (sci6 m e) = 0%nat.
Proof.
  unfold sci6. destruct (if _ =? 10000000 then _ else _) as [q k].
  rewrite !count_nl_app. unfold mantissa_str, exponent_str.
  norm_append. rewrite !count_nl_app. cbn [count_nl].
  rewrite !(digit_not_char _ 10 (is_digit_digit_char _)) by lia.
  rewrite (all_digits_count_nl _ (str_nat_all_digits _)).
  destruct (k <? 0), (Z.abs k <? 10); reflexivity.
Qed.

Lemma format_6e_count_nl (x : float) : count_nl (format_6e x) = 0%nat.
Proof.
  unfold format_6e. destruct (Prim2SF x) as [[]|[]| |[] m e]; try reflexivity;
    rewrite count_nl_app, sci6_count_nl; reflexivity.
Qed.

End FmtFacts.

(** A log line is one line. *)
Lemma log_line_count_nl (x : float) : Fmt.count_nl (log_line x) = 1%nat.
Proof.
  unfold log_line. now rewrite FmtFacts.count_nl_app, FmtFacts.format_6e_count_nl.
Qed.

(** ** The log files *)

Lemma floor_index_cases (k : Z) :
  1 <= k <= 10 ->
  k = 1 \/ k = 2 \/ k = 3 \/ k = 4 \/ k = 5 \/ k = 6 \/ k = 7 \/ k = 8 \/ k = 9 \/ k = 10.
Proof. lia. Qed.

Lemma split_floor_file (k : Z) :
  1 <= k <= 10 -> Os.split (floor_file k) = (Some "floor_disp"%string, floor_name k).
Proof.
  intros Hk%floor_index_cases.
  repeat (destruct Hk as [->|Hk]; [vm_compute; reflexivity|]).
  subst. vm_compute. reflexivity.
Qed.

Lemma floor_name_inj (j k : Z) :
  1 <= j <= 10 -> 1 <= k <= 10 -> floor_name j = floor_name k -> j = k.
Proof.
  intros Hj%floor_index_cases Hk%floor_index_cases.
  repeat (destruct Hj as [->|Hj]);
    repeat (destruct Hk as [->|Hk]); subst;
    try reflexivity; intros Heq; vm_compute in Heq; discriminate Heq.
Qed.

Lemma path_exists_floor_disp (fs : FileSystem) :
  Os.path_exists "floor_disp" fs = bool_decide (is_Some (fs !! "floor_disp"%string)).
Proof. reflexivity. Qed.

Lemma append_floor_file (k : Z) (text : string) (fs : FileSystem) (files : gmap string string) :
  1 <= k <= 10 -> fs !! "floor_disp"%string = Some files ->
  Os.append_text (floor_file k) text fs =
  Ok (<["floor_disp"%string :=
        <[floor_name k := default EmptyString (files !! floor_name k) +:+ text]> files]> fs).
Proof.
  intros Hk Hdir. unfold Os.append_text. now rewrite (split_floor_file k Hk), Hdir.
Qed.

Lemma read_floor_file (k : Z) (fs : FileSystem) :
  1 <= k <= 10 ->
  Os.read_text (floor_file k) fs = fs !! "floor_disp"%string ≫= (.!! floor_name k).
Proof. intros Hk. unfold Os.read_text. now rewrite (split_floor_file k Hk). Qed.

Lemma files_after_cons (max_disps : list float) (i : Z) (l : list Z)
    (files : gmap string string) :
  files_after max_disps (i :: l) files =
  files_after max_disps l
    (<[floor_name (i + 1) :=
         default EmptyString (files !! floor_name (i + 1))
         +:+ log_line (Py.getitem max_disps i)]> files).
Proof. reflexivity. Qed.

Lemma save_loop (max_disps : list float) (l : list Z) (fs : FileSystem)
    (files : gmap string string) :
  Forall (fun i => 0 <= i < 10) l -> fs !! "floor_disp"%string = Some files ->
  for_each_r l
    (fun i fs =>
       let floor_index := i + 1 in
       let filename := floor_file floor_index in
       Os.append_text filename (Fmt.format_6e (Py.getitem max_disps i) +:+ Fmt.nl) fs)
    fs
  = Ok (<["floor_disp"%string := files_after max_disps l files]> fs).
Proof.
  revert fs files. induction l as [|i l IH]; intros fs files Hall Hdir;
    cbn [for_each_r].
  - unfold files_after. cbn [fold_left]. now rewrite insert_id.
  - apply Forall_cons in Hall as [Hi Hall]. cbv zeta.
    rewrite (append_floor_file (i + 1) _ fs files) by (assumption || lia).
    cbn [mbind result_bind].
    rewrite (IH _ _ Hall (lookup_insert_eq _ _ _)).
    now rewrite insert_insert_eq, files_after_cons.
Qed.

Lemma files_after_lookup (max_disps : list float) (l : list Z) (files : gmap string string)
    (k : Z) :
  NoDup l -> Forall (fun i => 0 <= i < 10) l -> 1 <= k <= 10 ->
  files_after max_disps l files !! floor_name k =
  if decide (k - 1 ∈ l)
  then Some (default EmptyString (files !! floor_name k)
             +:+ log_line (Py.getitem max_disps (k - 1)))
  else files !! floor_name k.
Proof.
  intros Hnd Hall Hk. revert files.
  induction l as [|i l IH]; intros files.
  - rewrite decide_False; [reflexivity|apply not_elem_of_nil].
  - apply NoDup_cons in Hnd as [Hnot Hnd]. apply Forall_cons in Hall as [Hi Hall].
    rewrite files_after_cons, (IH Hnd Hall).
    destruct (decide (k - 1 = i)) as [<-|Hne].
    + replace (k - 1 + 1) with k by lia.
      rewrite (decide_False (P := k - 1 ∈ l)) by assumption.
      rewrite decide_True by (apply elem_of_cons; now left).
      now rewrite lookup_insert_eq.
    + assert (Hname : floor_name (i + 1) <> floor_name k).
      { intros Heq%floor_name_inj; lia. }
      rewrite (lookup_insert_ne _ _ _ _ Hname).
      destruct (decide (k - 1 ∈ l)) as [Hin|Hnin].
      * rewrite decide_True by (apply elem_of_cons; now right). reflexivity.
      * rewrite decide_False; [reflexivity|].
        intros [Heq|Hin]%elem_of_cons; contradiction.
Qed.

Lemma files_after_other (max_disps : list float) (l : list Z) (files : gmap string string)
    (f : string) :
  (forall k, 1 <= k <= 10 -> f <> floor_name k) -> Forall (fun i => 0 <= i < 10) l ->
  files_after max_disps l files !! f = files !! f.
Proof.
  intros Hf Hall. revert files.
  induction l as [|i l IH]; intros files; [reflexivity|].
  apply Forall_cons in Hall as [Hi Hall].
  rewrite files_after_cons, (IH Hall). apply lookup_insert_ne. intros Heq. apply (Hf (i + 1)); [lia|auto].
Qed.

(** What [_save_floor_disps] does to the files of a ten-floor environment. *)
Lemma save_floor_disps_spec (self : Env) (max_disps : list float) (fs : FileSystem) :
  floor_num self = 10 ->
  exists fs' : FileSystem,
    _save_floor_disps self max_disps fs = Ok fs'
    /\ is_Some (fs' !! "floor_disp"%string)
    /\ (forall k, 1 <= k <= 10 ->
          Os.read_text (floor_file k) fs' =
          Some (default EmptyString (Os.read_text (floor_file k) fs)
                +:+ log_line (Py.getitem max_disps (k - 1))))
    /\ (forall d, d <> "floor_disp"%string -> fs' !! d = fs !! d)
    /\ (forall f, (forall k, 1 <= k <= 10 -> f <> floor_name k) ->
          fs' !! "floor_disp"%string ≫= (.!! f) = fs !! "floor_disp"%string ≫= (.!! f)).
Proof.
  intros Hfn. unfold _save_floor_disps. rewrite Hfn, path_exists_floor_disp.
  set (files := default ∅ (fs !! "floor_disp"%string)).
  set (fs1 := if negb _ then _ else _).
  assert (Hdir1 : fs1 !! "floor_disp"%string = Some files).
  { unfold fs1, files. destruct (fs !! "floor_disp"%string) as [fl|] eqn:Hd.
    - rewrite bool_decide_true by eauto. exact Hd.
    - rewrite bool_decide_false by (intros [? ?]; discriminate).
      apply lookup_insert_eq. }
  assert (Hother1 : forall d, d <> "floor_disp"%string -> fs1 !! d = fs !! d).
  { intros d Hd. unfold fs1. destruct (negb _); [|reflexivity].
    now apply lookup_insert_ne. }
  assert (Hrange : Forall (fun i => 0 <= i < 10) (Py.range 0 10)).
  { apply Forall_forall. intros i Hi%elem_of_range. lia. }
  eexists. split; [apply (save_loop max_disps _ fs1 files Hrange Hdir1)|].
  split; [rewrite lookup_insert_eq; eauto|].
  assert (Hfiles : forall f, fs !! "floor_disp"%string ≫= (.!! f) = files !! f).
  { intros f. unfold files. destruct (fs !! "floor_disp"%string); [reflexivity|].
    cbn. now rewrite lookup_empty. }
  split; [|split].
  - intros k Hk. rewrite !read_floor_file, lookup_insert_eq, Hfiles by assumption.
    cbn [mbind option_bind].
    rewrite files_after_lookup by (assumption || apply NoDup_range).
    rewrite decide_True by (apply elem_of_range; lia). reflexivity.
  - intros d Hd. rewrite lookup_insert_ne by auto. now apply Hother1.
  - intros f Hf. rewrite lookup_insert_eq, Hfiles. cbn [mbind option_bind].
    now apply files_after_other.
Qed.

(** ** The time loop when a step fails *)

Section Failure.
Context {E : Type} `{Engine E}.

Lemma state_after_succ (self : Env) (k : nat) (o : Ops E) :
  state_after self (S k) o = state_after self k (ops_record (Analyze 1 (dt self)) o).
Proof. reflexivity. Qed.

Lemma status_at_succ (self : Env) (k : nat) (o : Ops E) :
  status_at self (S k) o = status_at self k (ops_record (Analyze 1 (dt self)) o).
Proof. reflexivity. Qed.

Lemma state_after_log (self : Env) (k : nat) (o : Ops E) :
  ops_log (state_after self k o) = ops_log o ++ replicate k (Analyze 1 (dt self)).
Proof.
  revert o. induction k as [|k IH]; intros o.
  - cbn. now rewrite app_nil_r.
  - rewrite state_after_succ, IH, ops_log_record, <- app_assoc. reflexivity.
Qed.

(** When the first [k] steps succeed and the next one fails, the loop
    accepts the first [k] states and stops after [k + 1] calls. *)
Lemma time_loop_failure (self : Env) (k steps : nat) (o : Ops E) (max_disps : list float) :
  (k < steps)%nat ->
  (forall j, (j < k)%nat -> status_at self j o = 0) ->
  status_at self k o <> 0 ->
  successful_states self steps o = map (fun j => state_after self (S j) o) (seq 0 k)
  /\ fst (time_loop self steps o max_disps) = state_after self (S k) o.
Proof.
  revert steps o max_disps. induction k as [|k IH]; intros steps o max_disps Hk Hok Hfail.
  - destruct steps as [|steps]; [lia|]. cbn [successful_states time_loop].
    unfold status_at in Hfail. cbn [state_after] in Hfail.
    unfold ops_analyze in *. cbn [fst snd] in *.
    replace (eng_status 1 (dt self) (ops_engine o) =? 0) with false by lia.
    split; reflexivity.
  - destruct steps as [|steps]; [lia|]. cbn [successful_states time_loop].
    pose proof (Hok 0%nat ltac:(lia)) as H0.
    unfold status_at in H0. cbn [state_after] in H0.
    unfold ops_analyze in *. cbn [fst snd] in *.
    rewrite H0. cbn [Z.eqb negb].
    destruct (IH steps (ops_record (Analyze 1 (dt self)) o)
                (record_max self (ops_record (Analyze 1 (dt self)) o) max_disps))
      as [Hstates Hstate].
    + lia.
    + intros j Hj. rewrite <- status_at_succ. apply Hok. lia.
    + rewrite <- status_at_succ. exact Hfail.
    + rewrite Hstates, Hstate. split; [|reflexivity].
      cbn [seq map]. f_equal. rewrite <- seq_shift, map_map. reflexivity.
Qed.

End Failure.

(** ** [step] *)

Section StepFacts.
Context {E : Type} `{Engine E}.

Lemma step_unfold (self : Env) (action : Z) (w : World E) :
  step self action w =
  st ← step_prelude self (w_ops w);
  let '(self1, o1) := st in
  run ← run_opensees_analysis self1 (action + 1) o1;
  let '((alphavalue, max_disps), o2) := run in
  fs ← _save_floor_disps (set_last_alphavalue alphavalue self1) max_disps (w_fs w);
  Ok (MkStepReturn [Py.float32 alphavalue] (Py.fneg alphavalue) true [],
      set_last_alphavalue alphavalue self1, MkWorld o2 fs).
Proof. reflexivity. Qed.

Lemma build_model_inv (self self1 : Env) (o o1 : Ops E) :
  build_model self o = Ok (self1, o1) ->
  self1 = set_model_built true self /\ o1 = ops_record Wipe o.
Proof.
  unfold build_model. destruct (ops_do Wipe o) as [o'|e] eqn:Hdo; cbn; [|discriminate].
  apply ops_do_inv in Hdo as ->. intros [= <- <-]. split; reflexivity.
Qed.

Lemma step_prelude_cases (self : Env) (o : Ops E) :
  let count := episode_count self + 1 in
  step_prelude self o =
  if count mod 10 =? 1
  then build_model (set_episode_count count self) o
  else Ok (set_episode_count count self, o).
Proof. reflexivity. Qed.

Lemma step_prelude_fields (self self1 : Env) (o o1 : Ops E) :
  step_prelude self o = Ok (self1, o1) ->
  floor_num self1 = floor_num self /\ code_drift self1 = code_drift self
  /\ dt self1 = dt self /\ num_steps self1 = num_steps self
  /\ acc_data self1 = acc_data self
  /\ episode_count self1 = episode_count self + 1
  /\ last_alphavalue self1 = last_alphavalue self
  /\ state_dim self1 = state_dim self /\ action_dim self1 = action_dim self.
Proof.
  rewrite step_prelude_cases. cbv zeta. destruct (_ mod 10 =? 1).
  - intros [-> _]%build_model_inv. cbn. repeat split; reflexivity.
  - intros [= <- _]. cbn. repeat split; reflexivity.
Qed.

(** A step that returned: its three stages returned. *)
Lemma step_inv (self self' : Env) (action : Z) (w w' : World E) (r : StepReturn) :
  step self action w = Ok (r, self', w') ->
  exists (self1 : Env) (o1 o2 : Ops E) (alphavalue : float) (max_disps : list float)
         (fs' : FileSystem),
    step_prelude self (w_ops w) = Ok (self1, o1)
    /\ run_opensees_analysis self1 (action + 1) o1 = Ok ((alphavalue, max_disps), o2)
    /\ _save_floor_disps (set_last_alphavalue alphavalue self1) max_disps (w_fs w) = Ok fs'
    /\ r = MkStepReturn [Py.float32 alphavalue] (Py.fneg alphavalue) true []
    /\ self' = set_last_alphavalue alphavalue self1
    /\ w' = MkWorld o2 fs'.
Proof.
  rewrite step_unfold.
  destruct (step_prelude self (w_ops w)) as [[self1 o1]|e] eqn:Hprelude; cbn;
    [|discriminate].
  destruct (run_opensees_analysis self1 (action + 1) o1)
    as [[[alphavalue max_disps] o2]|e] eqn:Hrun; cbn; [|discriminate].
  destruct (_save_floor_disps _ _ _) as [fs'|e] eqn:Hsave; cbn; [|discriminate].
  intros [= <- <- <-]. exists self1, o1, o2, alphavalue, max_disps, fs'.
  repeat split; assumption.
Qed.

(** When the solver accepts the calls of a step of a ten-floor
    environment, the step returns, and what it returns. *)
Lemma step_ok (self self1 : Env) (action : Z) (w : World E) (o1 o2 : Ops E)
    (alphavalue : float) (max_disps : list float) :
  floor_num self = 10 ->
  step_prelude self (w_ops w) = Ok (self1, o1) ->
  run_opensees_analysis self1 (action + 1) o1 = Ok ((alphavalue, max_disps), o2) ->
  exists fs' : FileSystem,
    step self action w =
      Ok (MkStepReturn [Py.float32 alphavalue] (Py.fneg alphavalue) true [],
          set_last_alphavalue alphavalue self1, MkWorld o2 fs')
    /\ _save_floor_disps (set_last_alphavalue alphavalue self1) max_disps (w_fs w) = Ok fs'.
Proof.
  intros Hfn Hprelude Hrun. rewrite step_unfold, Hprelude. cbn. rewrite Hrun. cbn.
  destruct (step_prelude_fields _ _ _ _ Hprelude) as (Hfn1 & _).
  destruct (save_floor_disps_spec (set_last_alphavalue alphavalue self1) max_disps (w_fs w))
    as (fs' & Hsave & _).
  { cbn. rewrite Hfn1. exact Hfn. }
  exists fs'. rewrite Hsave. split; reflexivity.
Qed.

End StepFacts.

Example format_6e_examples :
  map Fmt.format_6e
    [0.5; 1234.5678; 9.9999996e-5; 1e-310; 1.7976931348623157e308; 0.01; -0.5;
     10000005; 10000015; 5e-324; 9.9999995e22; 0; -0; infinity; nan;
     123456789; 1; 99999995; 0.1234567; 3.0e-5]%float
  = ["5.000000e-01"; "1.234568e+03"; "1.000000e-04"; "1.000000e-310"; "1.797693e+308";
     "1.000000e-02"; "-5.000000e-01"; "1.000000e+07"; "1.000002e+07"; "4.940656e-324";
     "1.000000e+23"; "0.000000e+00"; "-0.000000e+00"; "inf"; "nan";
     "1.234568e+08"; "1.000000e+00"; "1.000000e+08"; "1.234567e-01"; "3.000000e-05"]%string.
Proof. vm_compute. reflexivity. Qed.

Example str_examples :
  map Fmt.str [0; 1; 9; 10; 11; 100; 12345; -7] =
  ["0"; "1"; "9"; "10"; "11"; "100"; "12345"; "-7"]%string.
Proof. vm_compute. reflexivity. Qed.

Lemma isnan_of_Prim2SF (x : float) : Prim2SF x = S754_nan -> Py.isnan x = true.
Proof.
  intros Hx. unfold Py.isnan, is_nan. rewrite FloatAxioms.eqb_spec, Hx. reflexivity.
Qed.

Lemma story_drifts_ten (self : Env) (max_disps : list float) :
  floor_num self = 10 ->
  story_drifts self max_disps = map (story_drift max_disps) [0; 1; 2; 3; 4; 5; 6; 7; 8].
Proof. intros Hfn. unfold story_drifts. rewrite Hfn. reflexivity. Qed.

Lemma elem_of_first_nine (i : Z) : i ∈ [0; 1; 2; 3; 4; 5; 6; 7; 8] <-> 0 <= i <= 8.
Proof. change [0; 1; 2; 3; 4; 5; 6; 7; 8] with (Py.range 0 9). rewrite elem_of_range. lia. Qed.

(** C2 as stated fails: an entry of [max_disps] keeps the sign of the
    displacement, so it is not the maximum of the absolute values. *)
Lemma max_disps_entry_not_max_abs :
  ~ (forall (E : Type) (Eng : Engine E) (self : Env) (damper_floor : Z) (o o0 o' : Ops E)
            (tag : Z) (alphavalue : float) (max_disps : list float) (i : Z),
        define_model self damper_floor o = Ok (o0, tag) ->
        run_opensees_analysis self damper_floor o = Ok ((alphavalue, max_disps), o') ->
        0 <= i < floor_num self ->
        Py.getitem max_disps i = max_abs (floor_history self o0 (i + 2))).
Proof.
  intros Hclaim.
  destruct (define_model Demo.env0 5 (w_ops Demo.world0)) as [[o0 tag]|e] eqn:Hdef;
    [|vm_compute in Hdef; discriminate Hdef].
  pose proof (run_of_model _ _ _ _ _ Hdef) as Hrun. cbv zeta in Hrun.
  assert (Hi : 0 <= 0 < floor_num Demo.env0) by (cbn; lia).
  pose proof (Hclaim Scripted.t _ Demo.env0 5 (w_ops Demo.world0) o0 _ tag _ _ 0
                Hdef Hrun Hi) as Heq.
  clear Hclaim Hrun. vm_compute in Hdef. injection Hdef as <- <-.
  apply (f_equal (fun x => PrimFloat.ltb x 0)) in Heq.
  vm_compute in Heq. discriminate Heq.
Qed.

(** C2, amended: every entry of the returned [max_disps] is the displacement
    of its floor node (node [i + 2]) that is largest in magnitude over the
    successfully analysed steps, with its sign, and zero when there is none;
    its absolute value is the max-abs reduction of that node's history.  The
    entries are computed independently per floor. *)
Theorem max_disps_entry_is_signed_peak
    (E : Type) (Eng : Engine E) (self : Env) (damper_floor : Z) (o o' : Ops E)
    (alphavalue : float) (max_disps : list float) (i : Z) :
  run_opensees_analysis self damper_floor o = Ok ((alphavalue, max_disps), o') ->
  0 <= i < floor_num self ->
  exists (o0 : Ops E) (tag : Z),
    define_model self damper_floor o = Ok (o0, tag)
    /\ let entry := Py.getitem max_disps i in
       let history := floor_history self o0 (i + 2) in
       Py.fabs entry = max_abs history
       /\ entry = signed_peak history
       /\ (entry ∈ history \/ entry = 0%float)
       /\ Forall (fun d => Py.fgt (Py.fabs d) (Py.fabs entry) = false) history.
Proof.
  intros Hrun Hi. apply run_inv in Hrun as (o0 & tag & Hdef & Hrest). cbv zeta in Hrest.
  destruct Hrest as (-> & _ & _). exists o0, tag. split; [exact Hdef|]. cbv zeta.
  rewrite max_disps_entry by assumption.
  destruct (signed_peak_spec (floor_history self o0 (i + 2))) as [Hin Hall].
  repeat split; [apply abs_signed_peak|tauto|exact Hall].
Qed.

Lemma max_disps_entry_is_signed_peak_witness :
  match run_opensees_analysis Demo.env0 5 (w_ops Demo.world0) with
  | Ok ((_, max_disps), _) =>
      exists (o0 : Ops Scripted.t) (tag : Z),
        define_model Demo.env0 5 (w_ops Demo.world0) = Ok (o0, tag)
        /\ let entry := Py.getitem max_disps 1 in
           let history := floor_history Demo.env0 o0 3 in
           Py.fabs entry = max_abs history
           /\ entry = signed_peak history
           /\ (entry ∈ history \/ entry = 0%float)
           /\ Forall (fun d => Py.fgt (Py.fabs d) (Py.fabs entry) = false) history
  | Raise _ => False
  end.
Proof.
  destruct (run_opensees_analysis Demo.env0 5 (w_ops Demo.world0))
    as [[[alphavalue max_disps] o']|e] eqn:Hrun.
  - apply (max_disps_entry_is_signed_peak Scripted.t _ Demo.env0 5 (w_ops Demo.world0) o'
             alphavalue max_disps 1 Hrun).
    cbn; lia.
  - vm_compute in Hrun. discriminate Hrun.
Defined.

(** C4: the returned [alphavalue] is [|max_story_drift - code_drift|], where
    [max_story_drift] is the maximum of the nine drift ratios
    [|max_disps[i+1] - max_disps[i]| / 3.0], [i] in 0..8: no ratio exceeds
    it and it is one of them (when every ratio is NaN it is 0.0). *)
Theorem alphavalue_is_drift_deviation
    (E : Type) (Eng : Engine E) (self : Env) (damper_floor : Z) (o o' : Ops E)
    (alphavalue : float) (max_disps : list float) :
  floor_num self = 10 ->
  run_opensees_analysis self damper_floor o = Ok ((alphavalue, max_disps), o') ->
  let max_story_drift := max_story_drift_loop self max_disps in
  alphavalue = Py.fabs (Py.fsub max_story_drift (code_drift self))
  /\ (forall i,
        story_drift max_disps i =
        Py.fdiv (Py.fabs (Py.fsub (Py.getitem max_disps (i + 1)) (Py.getitem max_disps i)))
                3%float)
  /\ (forall i, 0 <= i <= 8 -> Py.fgt (story_drift max_disps i) max_story_drift = false)
  /\ ((exists i, 0 <= i <= 8 /\ max_story_drift = story_drift max_disps i)
      \/ (max_story_drift = 0%float
          /\ forall i, 0 <= i <= 8 -> Py.isnan (story_drift max_disps i) = true)).
Proof.
  intros Hfn Hrun. apply run_inv in Hrun as (o0 & tag & _ & Hrest). cbv zeta in Hrest.
  destruct Hrest as (Hmd & Halpha & _). rewrite <- Hmd in Halpha. cbv zeta.
  split; [exact Halpha|]. split; [reflexivity|].
  destruct (max_story_drift_spec self max_disps) as (Hall & Hin & _).
  rewrite (story_drifts_ten self max_disps Hfn) in Hall, Hin.
  rewrite Forall_forall in Hall. split.
  - intros i Hi. apply Hall. apply list_elem_of_fmap. exists i.
    split; [reflexivity|now apply elem_of_first_nine].
  - destruct Hin as [Hin|[Hz Hnan]].
    + left. apply list_elem_of_fmap in Hin as (i & Hm & Hi%elem_of_first_nine). eauto.
    + right. split; [exact Hz|]. intros i Hi. apply isnan_of_Prim2SF.
      rewrite Forall_forall in Hnan. apply Hnan, list_elem_of_fmap.
      exists i. split; [reflexivity|now apply elem_of_first_nine].
Qed.

Lemma alphavalue_is_drift_deviation_witness :
  match run_opensees_analysis Demo.env0 5 (w_ops Demo.world0) with
  | Ok ((alphavalue, max_disps), _) =>
      alphavalue =
      Py.fabs (Py.fsub (max_story_drift_loop Demo.env0 max_disps) (code_drift Demo.env0))
  | Raise _ => False
  end.
Proof.
  destruct (run_opensees_analysis Demo.env0 5 (w_ops Demo.world0))
    as [[[alphavalue max_disps] o']|e] eqn:Hrun.
  - apply (alphavalue_is_drift_deviation Scripted.t _ Demo.env0 5 (w_ops Demo.world0) o'
             alphavalue max_disps eq_refl Hrun).
  - vm_compute in Hrun. discriminate Hrun.
Defined.

(** ** Counting the wipes of a log *)

Lemma wipes_app (l1 l2 : list OpsCall) : wipes (l1 ++ l2) = (wipes l1 + wipes l2)%nat.
Proof. unfold wipes. now rewrite List.filter_app, length_app. Qed.

Lemma wipes_no_wipe (l : list OpsCall) : Forall (fun c => c <> Wipe) l -> wipes l = 0%nat.
Proof.
  unfold wipes. induction 1 as [|c l Hc _ IH]; [reflexivity|].
  cbn [List.filter]. destruct c; try congruence; exact IH.
Qed.

Lemma wipes_replicate_analyze (k : nat) (numIncr : Z) (dt : float) :
  wipes (replicate k (Analyze numIncr dt)) = 0%nat.
Proof. apply wipes_no_wipe, Forall_replicate. discriminate. Qed.

Section RunLog.
Context {E : Type} `{Engine E}.

(** The calls of one analysis: one wipe, the model, then only steps. *)
Lemma run_log (self : Env) (damper_floor : Z) (o o' : Ops E) (r : float * list float) :
  floor_num self = 10 ->
  run_opensees_analysis self damper_floor o = Ok (r, o') ->
  exists k : nat,
    (k <= Z.to_nat (num_steps self))%nat /\
    ops_log o' =
    ops_log o ++ Wipe :: model_calls self damper_floor ++ replicate k (Analyze 1 (dt self)).
Proof.
  intros Hfn Hrun. destruct r as [alphavalue max_disps].
  apply run_inv in Hrun as (o0 & tag & Hdef & Hrest). cbv zeta in Hrest.
  destruct Hrest as (_ & _ & ->).
  destruct (time_loop_log self (Z.to_nat (num_steps self)) o0 (Py.zeros (floor_num self)))
    as (k & Hk & ->).
  exists k. split; [exact Hk|].
  rewrite (define_model_log self damper_floor o o0 tag Hfn Hdef).
  rewrite <- app_assoc. reflexivity.
Qed.

Lemma run_wipes (self : Env) (damper_floor : Z) (o o' : Ops E) (r : float * list float) :
  floor_num self = 10 ->
  run_opensees_analysis self damper_floor o = Ok (r, o') ->
  wipes (ops_log o') = S (wipes (ops_log o)).
Proof.
  intros Hfn Hrun. destruct (run_log self damper_floor o o' r Hfn Hrun) as (k & _ & ->).
  rewrite wipes_app. change (Wipe :: ?l) with ([Wipe] ++ l).
  rewrite !wipes_app, wipes_replicate_analyze,
    (wipes_no_wipe _ (model_calls_no_wipe self damper_floor)).
  cbn. lia.
Qed.

End RunLog.

(** ** The claims about [step] and [reset] *)

Lemma link_elements_of_built_model_witness :
  match run_opensees_analysis Demo.env0 5 (w_ops Demo.world0),
        run_opensees_analysis Demo.env0 10 (w_ops Demo.world0) with
  | Ok (_, o5), Ok (_, o10) =>
      length (model_links (ops_log o5)) = 10%nat
      /\ length (model_links (ops_log o10)) = 9%nat
  | _, _ => False
  end.
Proof.
  destruct (run_opensees_analysis Demo.env0 5 (w_ops Demo.world0)) as [[r5 o5]|e] eqn:Hrun5;
    [|vm_compute in Hrun5; discriminate Hrun5].
  destruct (run_opensees_analysis Demo.env0 10 (w_ops Demo.world0)) as [[r10 o10]|e]
    eqn:Hrun10; [|vm_compute in Hrun10; discriminate Hrun10].
  split.
  - destruct (link_elements_of_built_model Scripted.t _ Demo.env0 5 (w_ops Demo.world0) o5 r5
                eq_refl Hrun5) as [Hdamper _].
    apply Hdamper. lia.
  - destruct (link_elements_of_built_model Scripted.t _ Demo.env0 10 (w_ops Demo.world0) o10
                r10 eq_refl Hrun10) as (_ & Htop & _).
    apply Htop. reflexivity.
Defined.

(** C3 as stated fails: the constructor takes any [code_drift], and with a
    drift limit that is not a number the reward is NaN, which is not
    [<= 0]. *)
Lemma reward_not_le_zero_for_nan_limit :
  match step Demo.env_nan_limit 4 Demo.world0 with
  | Ok (r, _, _) => Py.fle (reward r) 0 = false /\ Py.isnan (reward r) = true
  | Raise _ => False
  end.
Proof. vm_compute. split; reflexivity. Qed.

(** C3, amended: the reward a step returns is [-alphavalue], for the
    [alphavalue] that [run_opensees_analysis] computed in that call; when
    the drift limit is a finite number the reward is [<= 0], and it is
    [== 0] exactly when [max_story_drift == code_drift]. *)
Theorem step_reward_is_neg_alphavalue
    (E : Type) (Eng : Engine E) (self self' : Env) (action : Z) (w w' : World E)
    (r : StepReturn) :
  step self action w = Ok (r, self', w') ->
  exists (self1 : Env) (o1 o2 : Ops E) (alphavalue : float) (max_disps : list float),
    step_prelude self (w_ops w) = Ok (self1, o1)
    /\ run_opensees_analysis self1 (action + 1) o1 = Ok ((alphavalue, max_disps), o2)
    /\ reward r = Py.fneg alphavalue
    /\ let max_story_drift := max_story_drift_loop self1 max_disps in
       alphavalue = Py.fabs (Py.fsub max_story_drift (code_drift self))
       /\ (Py.isfinite (code_drift self) = true ->
           Py.fle (reward r) 0 = true
           /\ Py.feq (reward r) 0 = Py.feq max_story_drift (code_drift self)).
Proof.
  intros Hstep.
  apply step_inv in Hstep
    as (self1 & o1 & o2 & alphavalue & max_disps & fs' & Hprelude & Hrun & _ & -> & _ & _).
  exists self1, o1, o2, alphavalue, max_disps.
  split; [exact Hprelude|]. split; [exact Hrun|]. split; [reflexivity|]. cbv zeta.
  destruct (step_prelude_fields _ _ _ _ Hprelude) as (_ & Hcd & _).
  apply run_inv in Hrun as (o0 & tag & _ & Hrest). cbv zeta in Hrest.
  destruct Hrest as (Hmd & Halpha & _). rewrite <- Hmd, Hcd in Halpha.
  split; [exact Halpha|]. intros Hfinite. cbn [reward]. rewrite Halpha.
  destruct (max_story_drift_spec self1 max_disps) as (_ & _ & Hnan).
  apply (neg_abs_sub_sign (max_story_drift_loop self1 max_disps) (code_drift self)
           Hnan Hfinite).
Qed.

Lemma step_reward_is_neg_alphavalue_witness :
  match step Demo.env0 4 Demo.world0 with
  | Ok (r, _, _) =>
      exists (self1 : Env) (o1 o2 : Ops Scripted.t) (alphavalue : float)
             (max_disps : list float),
        step_prelude Demo.env0 (w_ops Demo.world0) = Ok (self1, o1)
        /\ run_opensees_analysis self1 5 o1 = Ok ((alphavalue, max_disps), o2)
        /\ reward r = Py.fneg alphavalue
        /\ let max_story_drift := max_story_drift_loop self1 max_disps in
           alphavalue = Py.fabs (Py.fsub max_story_drift (code_drift Demo.env0))
           /\ (Py.isfinite (code_drift Demo.env0) = true ->
               Py.fle (reward r) 0 = true
               /\ Py.feq (reward r) 0 = Py.feq max_story_drift (code_drift Demo.env0))
  | Raise _ => False
  end.
Proof.
  destruct (step Demo.env0 4 Demo.world0) as [[[r self'] w']|e] eqn:Hstep.
  - apply (step_reward_is_neg_alphavalue Scripted.t _ Demo.env0 self' 4 Demo.world0 w' r
             Hstep).
  - vm_compute in Hstep. discriminate Hstep.
Defined.

(** C7: the third component [done] of what [step] returns is [True], for
    every action and every environment state; and when the solver accepts
    the calls of a step of a ten-floor environment, the step returns. *)
Theorem step_done
    (E : Type) (Eng : Engine E) (self : Env) (action : Z) (w : World E) :
  (forall r self' w', step self action w = Ok (r, self', w') -> done r = true)
  /\ (floor_num self = 10 ->
      forall self1 o1 alphavalue max_disps o2,
        step_prelude self (w_ops w) = Ok (self1, o1) ->
        run_opensees_analysis self1 (action + 1) o1 = Ok ((alphavalue, max_disps), o2) ->
        exists r self' w', step self action w = Ok (r, self', w') /\ done r = true).
Proof.
  split.
  - intros r self' w' Hstep.
    apply step_inv in Hstep as (? & ? & ? & ? & ? & ? & _ & _ & _ & -> & _).
    reflexivity.
  - intros Hfn self1 o1 alphavalue max_disps o2 Hprelude Hrun.
    destruct (step_ok self self1 action w o1 o2 alphavalue max_disps Hfn Hprelude Hrun)
      as (fs' & Hstep & _).
    eexists _, _, _. split; [exact Hstep|reflexivity].
Qed.

(** C8: [reset] sets [last_alphavalue] to 0.0, returns the one-element
    state [[0.0]] and changes nothing else (it is a total function, so it
    always succeeds); [build_model] does not touch [last_alphavalue], and
    [step] sets it to the episode's [alphavalue]. *)
Theorem reset_clears_observation
    (E : Type) (Eng : Engine E) (self : Env) (action : Z) (w : World E) :
  let '(self0, state) := reset self in
  last_alphavalue self0 = 0%float
  /\ state = [0%float]
  /\ self0 = set_last_alphavalue 0 self
  /\ (forall self1 o1,
        build_model self (w_ops w) = Ok (self1, o1) ->
        last_alphavalue self1 = last_alphavalue self)
  /\ (forall self1 o1,
        step_prelude self (w_ops w) = Ok (self1, o1) ->
        last_alphavalue self1 = last_alphavalue self)
  /\ forall r self' w',
       step self action w = Ok (r, self', w') ->
       exists (self1 : Env) (o1 o2 : Ops E) (alphavalue : float) (max_disps : list float),
         step_prelude self (w_ops w) = Ok (self1, o1)
         /\ run_opensees_analysis self1 (action + 1) o1 = Ok ((alphavalue, max_disps), o2)
         /\ last_alphavalue self' = alphavalue.
Proof.
  cbn. repeat split.
  - intros self1 o1 [-> _]%build_model_inv. reflexivity.
  - intros self1 o1 Hprelude. apply (step_prelude_fields _ _ _ _ Hprelude).
  - intros r self' w' Hstep.
    apply step_inv in Hstep
      as (self1 & o1 & o2 & alphavalue & max_disps & fs' & Hprelude & Hrun & _ & _ & -> & _).
    exists self1, o1, o2, alphavalue, max_disps. repeat split; assumption.
Qed.

Section Rebuild.
Context {E : Type} `{Engine E}.

(** What the first statements of a step do to the solver and the flag. *)
Lemma step_prelude_effect (self self1 : Env) (o o1 : Ops E) :
  step_prelude self o = Ok (self1, o1) ->
  let count := episode_count self + 1 in
  if count mod 10 =? 1
  then self1 = set_model_built true (set_episode_count count self)
       /\ o1 = ops_record Wipe o
  else self1 = set_episode_count count self /\ o1 = o.
Proof.
  rewrite step_prelude_cases. cbv zeta. destruct (_ mod 10 =? 1).
  - apply build_model_inv.
  - intros [= <- <-]. split; reflexivity.
Qed.

(** What one step does to the episode counter, the flag and the wipes. *)
Lemma step_counters (self self' : Env) (action : Z) (w w' : World E) (r : StepReturn) :
  floor_num self = 10 ->
  step self action w = Ok (r, self', w') ->
  let count := episode_count self + 1 in
  floor_num self' = 10
  /\ episode_count self' = count
  /\ model_built self' = (if count mod 10 =? 1 then true else model_built self)
  /\ wipes (ops_log (w_ops w')) =
     (wipes (ops_log (w_ops w)) + (if (count mod 10 =? 1)%Z then 2 else 1))%nat.
Proof.
  intros Hfn Hstep. cbv zeta.
  apply step_inv in Hstep
    as (self1 & o1 & o2 & alphavalue & max_disps & fs' & Hprelude & Hrun & _ & _ & -> & ->).
  destruct (step_prelude_fields _ _ _ _ Hprelude) as (Hfn1 & _).
  rewrite Hfn in Hfn1. cbn [w_ops].
  rewrite (run_wipes self1 (action + 1) o1 o2 _ Hfn1 Hrun).
  apply step_prelude_effect in Hprelude. cbv zeta in Hprelude.
  destruct (_ mod 10 =? 1); destruct Hprelude as [-> ->];
    rewrite ?ops_log_record, ?wipes_app; cbn; repeat split; lia.
Qed.

(** Over a run of episodes from the counter [c]: one wipe per analysis,
    and one more for every episode number that is 1 modulo 10. *)
Lemma episodes_wipes (actions : list Z) (self self' : Env) (w w' : World E) :
  floor_num self = 10 -> 0 <= episode_count self ->
  episodes actions self w = Ok (self', w') ->
  let c := episode_count self in
  let n := Z.of_nat (length actions) in
  episode_count self' = c + n
  /\ Z.of_nat (wipes (ops_log (w_ops w'))) =
     Z.of_nat (wipes (ops_log (w_ops w))) + n + (rebuilds_upto (c + n) - rebuilds_upto c).
Proof.
  cbv zeta. revert self w.
  induction actions as [|action rest IH]; intros self w Hfn Hc Hrun.
  - cbn in Hrun. injection Hrun as <- <-. cbn [length]. change (Z.of_nat 0) with 0.
    rewrite !Z.add_0_r. split; lia.
  - cbn [episodes reset] in Hrun.
    destruct (step (set_last_alphavalue 0 self) action w) as [[[r self1] w1]|e] eqn:Hstep;
      cbn in Hrun; [|discriminate Hrun].
    destruct (step_counters (set_last_alphavalue 0 self) self1 action w w1 r Hfn Hstep)
      as (Hfn1 & Hcount & _ & Hwipes).
    cbv zeta in Hcount, Hwipes. cbn [episode_count set_last_alphavalue] in Hcount, Hwipes.
    destruct (IH self1 w1 Hfn1 ltac:(lia) Hrun) as (Hcount' & Hwipes').
    rewrite Hcount', Hwipes', Hwipes, Hcount. split; [cbn [length]; lia|].
    unfold rebuilds_upto. cbn [length].
    destruct (_ mod 10 =? 1) eqn:Hmod.
    + apply Z.eqb_eq in Hmod. Z.div_mod_to_equations. lia.
    + apply Z.eqb_neq in Hmod. Z.div_mod_to_equations. lia.
Qed.

End Rebuild.

(** C6: [step] calls [build_model] (a solver wipe, and the flag
    [model_built] set) exactly when the episode counter, after its
    increment, is 1 modulo 10, and does nothing before the analysis
    otherwise; so a step wipes the solver twice on the episodes 1, 11, 21,
    ... and once on every other one. *)
Theorem build_model_every_tenth_episode
    (E : Type) (Eng : Engine E) (self : Env) (action : Z) (w : World E) :
  let count := episode_count self + 1 in
  (count mod 10 = 1 ->
   step_prelude self (w_ops w) = build_model (set_episode_count count self) (w_ops w)
   /\ forall self1 o1,
        step_prelude self (w_ops w) = Ok (self1, o1) ->
        episode_count self1 = count
        /\ ops_log o1 = ops_log (w_ops w) ++ [Wipe]
        /\ model_built self1 = true)
  /\ (count mod 10 <> 1 ->
      step_prelude self (w_ops w) = Ok (set_episode_count count self, w_ops w))
  /\ (floor_num self = 10 ->
      forall r self' w',
        step self action w = Ok (r, self', w') ->
        episode_count self' = count
        /\ model_built self' = (if count mod 10 =? 1 then true else model_built self)
        /\ wipes (ops_log (w_ops w')) =
           (wipes (ops_log (w_ops w)) + (if (count mod 10 =? 1)%Z then 2 else 1))%nat).
Proof.
  cbv zeta. split; [|split].
  - intros Hmod. rewrite step_prelude_cases. cbv zeta.
    apply Z.eqb_eq in Hmod. rewrite Hmod. split; [reflexivity|].
    intros self1 o1 [-> ->]%build_model_inv. repeat split; reflexivity.
  - intros Hmod. rewrite step_prelude_cases. cbv zeta.
    apply Z.eqb_neq in Hmod. rewrite Hmod. reflexivity.
  - intros Hfn r self' w' Hstep.
    destruct (step_counters self self' action w w' r Hfn Hstep) as (_ & Hrest).
    exact Hrest.
Qed.

Lemma build_model_every_tenth_episode_witness :
  match step Demo.env0 4 Demo.world0 with
  | Ok (_, self', w') =>
      episode_count self' = 1
      /\ model_built self' = true
      /\ wipes (ops_log (w_ops w')) = 2%nat
  | Raise _ => False
  end.
Proof.
  destruct (step Demo.env0 4 Demo.world0) as [[[r self'] w']|e] eqn:Hstep.
  - destruct (build_model_every_tenth_episode Scripted.t _ Demo.env0 4 Demo.world0)
      as (_ & _ & Hstepped).
    apply (Hstepped eq_refl r self' w' Hstep).
  - vm_compute in Hstep. discriminate Hstep.
Defined.

Section EarlyStop.
Context {E : Type} `{Engine E}.

(** The analysis when the first [k] steps succeed and the next fails. *)
Lemma run_failure (self : Env) (damper_floor : Z) (o o0 : Ops E) (tag : Z) (k : nat) :
  (k < Z.to_nat (num_steps self))%nat ->
  define_model self damper_floor o = Ok (o0, tag) ->
  (forall j, (j < k)%nat -> status_at self j o0 = 0) ->
  status_at self k o0 <> 0 ->
  exists (alphavalue : float) (max_disps : list float),
    run_opensees_analysis self damper_floor o =
      Ok ((alphavalue, max_disps), state_after self (S k) o0)
    /\ ops_log (state_after self (S k) o0) =
       ops_log o0 ++ replicate (S k) (Analyze 1 (dt self))
    /\ (forall nd,
          floor_history self o0 nd =
          map (fun j => ops_nodeDisp nd 1 (state_after self (S j) o0)) (seq 0 k))
    /\ (forall i, 0 <= i < floor_num self ->
          Py.getitem max_disps i =
          signed_peak (map (fun j => ops_nodeDisp (i + 2) 1 (state_after self (S j) o0))
                         (seq 0 k)))
    /\ alphavalue =
       Py.fabs (Py.fsub (max_story_drift_loop self max_disps) (code_drift self)).
Proof.
  intros Hk Hdef Hok Hfail.
  destruct (time_loop_failure self k (Z.to_nat (num_steps self)) o0
              (Py.zeros (floor_num self)) Hk Hok Hfail) as [Hstates Hstate].
  assert (Hhist : forall nd,
             floor_history self o0 nd =
             map (fun j => ops_nodeDisp nd 1 (state_after self (S j) o0)) (seq 0 k)).
  { intros nd. unfold floor_history, node_history. rewrite Hstates, map_map. reflexivity. }
  eexists _, _. split.
  { rewrite (run_of_model self damper_floor o o0 tag Hdef). cbv zeta. rewrite Hstate.
    reflexivity. }
  split; [apply state_after_log|]. split; [exact Hhist|]. split; [|reflexivity].
  intros i Hi. rewrite max_disps_entry by assumption. now rewrite Hhist.
Qed.

End EarlyStop.

(** C5: when the solver returns a non-zero status at some step (after [k]
    successful ones), the time loop stops there: [k + 1] calls of
    [ops.analyze] are made and no more.  Nothing is raised:
    [run_opensees_analysis] returns [alphavalue] and [max_disps] computed
    from the displacements of the [k] steps before the failure, and [step]
    returns its reward, sets the state and appends the log lines as in any
    other episode. *)
Theorem failed_analysis_step_ends_the_loop
    (E : Type) (Eng : Engine E) (self self1 : Env) (action : Z) (w : World E)
    (o1 o0 : Ops E) (tag : Z) (k : nat) :
  floor_num self = 10 ->
  (k < Z.to_nat (num_steps self))%nat ->
  step_prelude self (w_ops w) = Ok (self1, o1) ->
  define_model self1 (action + 1) o1 = Ok (o0, tag) ->
  (forall j, (j < k)%nat -> status_at self1 j o0 = 0) ->
  status_at self1 k o0 <> 0 ->
  exists (alphavalue : float) (max_disps : list float) (fs' : FileSystem),
    run_opensees_analysis self1 (action + 1) o1 =
      Ok ((alphavalue, max_disps), state_after self1 (S k) o0)
    /\ step self action w =
         Ok (MkStepReturn [Py.float32 alphavalue] (Py.fneg alphavalue) true [],
             set_last_alphavalue alphavalue self1,
             MkWorld (state_after self1 (S k) o0) fs')
    /\ ops_log (state_after self1 (S k) o0) =
       ops_log o0 ++ replicate (S k) (Analyze 1 (dt self))
    /\ (forall i, 0 <= i < 10 ->
          Py.getitem max_disps i =
          signed_peak (map (fun j => ops_nodeDisp (i + 2) 1 (state_after self1 (S j) o0))
                         (seq 0 k)))
    /\ alphavalue =
       Py.fabs (Py.fsub (max_story_drift_loop self1 max_disps) (code_drift self))
    /\ (forall f, 1 <= f <= 10 ->
          Os.read_text (floor_file f) fs' =
          Some (default EmptyString (Os.read_text (floor_file f) (w_fs w))
                +:+ log_line (Py.getitem max_disps (f - 1)))).
Proof.
  intros Hfn Hk Hprelude Hdef Hok Hfail.
  destruct (step_prelude_fields _ _ _ _ Hprelude) as (Hfn1 & Hcd & Hdt & Hns & _).
  destruct (run_failure self1 (action + 1) o1 o0 tag k)
    as (alphavalue & max_disps & Hrun & Hlog & _ & Hentries & Halpha);
    [rewrite Hns; exact Hk|exact Hdef|exact Hok|exact Hfail|].
  destruct (step_ok self self1 action w o1 _ alphavalue max_disps Hfn Hprelude Hrun)
    as (fs' & Hstep & Hsave).
  exists alphavalue, max_disps, fs'.
  split; [exact Hrun|]. split; [exact Hstep|]. split; [rewrite Hlog, Hdt; reflexivity|].
  split; [intros i Hi; apply Hentries; rewrite Hfn1, Hfn; exact Hi|].
  split; [rewrite Halpha, Hcd; reflexivity|].
  destruct (save_floor_disps_spec (set_last_alphavalue alphavalue self1) max_disps (w_fs w))
    as (fs'' & Hsave' & _ & Hfiles & _).
  { cbn. rewrite Hfn1. exact Hfn. }
  rewrite Hsave in Hsave'. injection Hsave' as <-. exact Hfiles.
Qed.

Lemma failed_analysis_step_ends_the_loop_witness :
  exists r self' w', step Demo.env0 4 Demo.world_fail_second = Ok (r, self', w').
Proof.
  destruct (step_prelude Demo.env0 (w_ops Demo.world_fail_second)) as [[self1 o1]|e]
    eqn:Hprelude; [|vm_compute in Hprelude; discriminate Hprelude].
  destruct (define_model self1 5 o1) as [[o0 tag]|e] eqn:Hdef.
  - destruct (failed_analysis_step_ends_the_loop Scripted.t _ Demo.env0 self1 4
                Demo.world_fail_second o1 o0 tag 1 eq_refl ltac:(cbn; lia) Hprelude Hdef)
      as (alphavalue & max_disps & fs' & _ & Hstep & _).
    + intros j Hj. destruct j as [|j]; [|lia].
      vm_compute in Hprelude. injection Hprelude as <- <-.
      vm_compute in Hdef. injection Hdef as <- <-. reflexivity.
    + vm_compute in Hprelude. injection Hprelude as <- <-.
      vm_compute in Hdef. injection Hdef as <- <-. vm_compute. discriminate.
    + eauto.
  - vm_compute in Hprelude. injection Hprelude as <- <-.
    vm_compute in Hdef. discriminate Hdef.
Defined.

Section LogFiles.
Context {E : Type} `{Engine E}.

(** The log files after a step whose solver calls returned. *)
Lemma step_log_files (self self1 : Env) (action : Z) (w : World E) (o1 o2 : Ops E)
    (alphavalue : float) (max_disps : list float) :
  floor_num self = 10 ->
  step_prelude self (w_ops w) = Ok (self1, o1) ->
  run_opensees_analysis self1 (action + 1) o1 = Ok ((alphavalue, max_disps), o2) ->
  exists fs' : FileSystem,
    step self action w =
      Ok (MkStepReturn [Py.float32 alphavalue] (Py.fneg alphavalue) true [],
          set_last_alphavalue alphavalue self1, MkWorld o2 fs')
    /\ is_Some (fs' !! "floor_disp"%string)
    /\ (forall f, 1 <= f <= 10 ->
          Os.read_text (floor_file f) fs' =
          Some (default EmptyString (Os.read_text (floor_file f) (w_fs w))
                +:+ log_line (Py.getitem max_disps (f - 1))))
    /\ (forall d, d <> "floor_disp"%string -> fs' !! d = w_fs w !! d)
    /\ (forall name, (forall f, 1 <= f <= 10 -> name <> floor_name f) ->
          fs' !! "floor_disp"%string ≫= (.!! name) =
          w_fs w !! "floor_disp"%string ≫= (.!! name)).
Proof.
  intros Hfn Hprelude Hrun.
  destruct (step_prelude_fields _ _ _ _ Hprelude) as (Hfn1 & _).
  destruct (step_ok self self1 action w o1 o2 alphavalue max_disps Hfn Hprelude Hrun)
    as (fs' & Hstep & Hsave).
  exists fs'. split; [exact Hstep|].
  destruct (save_floor_disps_spec (set_last_alphavalue alphavalue self1) max_disps (w_fs w))
    as (fs'' & Hsave' & Hspec).
  { cbn. rewrite Hfn1. exact Hfn. }
  rewrite Hsave in Hsave'. injection Hsave' as <-. exact Hspec.
Qed.

(** The same, read off a step that returned. *)
Lemma step_log_files_inv (self self' : Env) (action : Z) (w w' : World E) (r : StepReturn) :
  floor_num self = 10 ->
  step self action w = Ok (r, self', w') ->
  floor_num self' = 10
  /\ exists max_disps : list float,
       (forall f, 1 <= f <= 10 ->
          Os.read_text (floor_file f) (w_fs w') =
          Some (default EmptyString (Os.read_text (floor_file f) (w_fs w))
                +:+ log_line (Py.getitem max_disps (f - 1)))).
Proof.
  intros Hfn Hstep. pose proof Hstep as Hstep'.
  apply step_inv in Hstep'
    as (self1 & o1 & o2 & alphavalue & max_disps & fs' & Hprelude & Hrun & _ & _ & -> & _).
  destruct (step_prelude_fields _ _ _ _ Hprelude) as (Hfn1 & _).
  split; [cbn; rewrite Hfn1; exact Hfn|].
  destruct (step_log_files self self1 action w o1 o2 alphavalue max_disps Hfn Hprelude Hrun)
    as (fs'' & Hstep'' & _ & Hfiles & _).
  rewrite Hstep in Hstep''. injection Hstep'' as _ ->.
  exists max_disps. exact Hfiles.
Qed.

End LogFiles.

(** What a written line looks like. *)
Lemma log_line_shape (x : float) :
  log_line x = Fmt.format_6e x +:+ Fmt.nl
  /\ Fmt.count_nl (log_line x) = 1%nat
  /\ (Py.isfinite x = true ->
      Fmt.is_sci6 (Fmt.format_6e x) = true
      /\ Fmt.significant_digits (Fmt.format_6e x) = 7%nat).
Proof.
  split; [reflexivity|]. split; [apply log_line_count_nl|].
  intros Hfinite. pose proof (FmtFacts.format_6e_shape x Hfinite) as Hshape.
  split; [exact Hshape|]. apply FmtFacts.is_sci6_digits, Hshape.
Qed.

(** C9 as stated fails: a written line shows seven significant digits (one
    before the point and six after it), not six. *)
Lemma log_line_has_seven_digits :
  match step Demo.env0 4 Demo.world0 with
  | Ok (_, _, w') =>
      Os.read_text (floor_file 1) (w_fs w') = Some ("-5.000000e-01" +:+ Fmt.nl)%string
      /\ Fmt.significant_digits "-5.000000e-01" <> 6%nat
  | Raise _ => False
  end.
Proof. vm_compute. split; [reflexivity|discriminate]. Qed.

(** C9, amended: a step appends exactly one line to each of the ten files
    [floor_disp/floor{1..10}_disp.txt], after creating the directory when it
    is absent and keeping what the files held; the line of floor [f] is
    [max_disps[f-1]] in the format [.6e] followed by a line end, which for a
    finite value is scientific notation with seven significant digits (one
    before the point, six after it).  Nothing else in the file system
    changes, and a second step appends a second line to each file. *)
Theorem step_appends_one_line_per_floor
    (E : Type) (Eng : Engine E) (self self1 : Env) (action : Z) (w : World E)
    (o1 o2 : Ops E) (alphavalue : float) (max_disps : list float) :
  floor_num self = 10 ->
  step_prelude self (w_ops w) = Ok (self1, o1) ->
  run_opensees_analysis self1 (action + 1) o1 = Ok ((alphavalue, max_disps), o2) ->
  exists r self' w',
    step self action w = Ok (r, self', w')
    /\ is_Some (w_fs w' !! "floor_disp"%string)
    /\ (forall f, 1 <= f <= 10 ->
          let x := Py.getitem max_disps (f - 1) in
          Os.read_text (floor_file f) (w_fs w') =
          Some (default EmptyString (Os.read_text (floor_file f) (w_fs w)) +:+ log_line x)
          /\ log_line x = Fmt.format_6e x +:+ Fmt.nl
          /\ Fmt.count_nl (log_line x) = 1%nat
          /\ (Py.isfinite x = true ->
              Fmt.is_sci6 (Fmt.format_6e x) = true
              /\ Fmt.significant_digits (Fmt.format_6e x) = 7%nat))
    /\ (forall d, d <> "floor_disp"%string -> w_fs w' !! d = w_fs w !! d)
    /\ (forall name, (forall f, 1 <= f <= 10 -> name <> floor_name f) ->
          w_fs w' !! "floor_disp"%string ≫= (.!! name) =
          w_fs w !! "floor_disp"%string ≫= (.!! name))
    /\ forall action2 r2 self2 w2,
         step self' action2 w' = Ok (r2, self2, w2) ->
         exists max_disps2 : list float,
           forall f, 1 <= f <= 10 ->
             Os.read_text (floor_file f) (w_fs w2) =
             Some ((default EmptyString (Os.read_text (floor_file f) (w_fs w))
                    +:+ log_line (Py.getitem max_disps (f - 1)))
                   +:+ log_line (Py.getitem max_disps2 (f - 1))).
Proof.
  intros Hfn Hprelude Hrun.
  destruct (step_log_files self self1 action w o1 o2 alphavalue max_disps Hfn Hprelude Hrun)
    as (fs' & Hstep & Hdir & Hfiles & Hdirs & Hnames).
  eexists _, _, _. split; [exact Hstep|]. cbn [w_fs]. split; [exact Hdir|].
  split; [|split; [exact Hdirs|split; [exact Hnames|]]].
  - intros f Hf. cbv zeta. split; [apply Hfiles, Hf|apply log_line_shape].
  - intros action2 r2 self2 w2 Hstep2.
    destruct (step_prelude_fields _ _ _ _ Hprelude) as (Hfn1 & _).
    destruct (step_log_files_inv (set_last_alphavalue alphavalue self1) self2 action2
                (MkWorld o2 fs') w2 r2) as (_ & max_disps2 & Hfiles2);
      [cbn; rewrite Hfn1; exact Hfn|exact Hstep2|].
    exists max_disps2. intros f Hf. rewrite (Hfiles2 f Hf). cbn [w_fs].
    rewrite (Hfiles f Hf). reflexivity.
Qed.

Lemma step_appends_one_line_per_floor_witness :
  exists r self' w', step Demo.env0 4 Demo.world0 = Ok (r, self', w').
Proof.
  destruct (step_prelude Demo.env0 (w_ops Demo.world0)) as [[self1 o1]|e] eqn:Hprelude;
    [|vm_compute in Hprelude; discriminate Hprelude].
  destruct (run_opensees_analysis self1 5 o1) as [[[alphavalue max_disps] o2]|e] eqn:Hrun.
  - destruct (step_appends_one_line_per_floor Scripted.t _ Demo.env0 self1 4 Demo.world0
                o1 o2 alphavalue max_disps eq_refl Hprelude Hrun)
      as (r & self' & w' & Hstep & _).
    eauto.
  - vm_compute in Hprelude. injection Hprelude as <- <-.
    vm_compute in Hrun. discriminate Hrun.
Defined.

Section FirstStep.
Context {E : Type} `{Engine E}.

(** The analysis when the first step fails: nothing is recorded. *)
Lemma run_first_failure (self : Env) (damper_floor : Z) (o o0 : Ops E) (tag : Z) :
  floor_num self = 10 ->
  (0 < Z.to_nat (num_steps self))%nat ->
  define_model self damper_floor o = Ok (o0, tag) ->
  status_at self 0 o0 <> 0 ->
  run_opensees_analysis self damper_floor o =
    Ok ((Py.fabs (code_drift self), Py.zeros 10), state_after self 1 o0)
  /\ max_story_drift_loop self (Py.zeros 10) = 0%float
  /\ ops_log (state_after self 1 o0) = ops_log o0 ++ [Analyze 1 (dt self)].
Proof.
  intros Hfn Hsteps Hdef Hfail.
  destruct (time_loop_failure self 0 (Z.to_nat (num_steps self)) o0
              (Py.zeros (floor_num self)) Hsteps)
    as [Hstates Hstate]; [intros j Hj; lia|exact Hfail|].
  assert (Hmax : max_story_drift_loop self (Py.zeros 10) = 0%float).
  { unfold max_story_drift_loop. rewrite Hfn. reflexivity. }
  split; [|split; [exact Hmax|apply state_after_log]].
  rewrite (run_of_model self damper_floor o o0 tag Hdef). cbv zeta.
  rewrite time_loop_states, Hstates, Hstate, Hfn. cbn [seq map fold_left].
  rewrite Hmax, abs_zero_sub. reflexivity.
Qed.

End FirstStep.

(** C10 as stated fails: with a negative drift limit the [alphavalue] of an
    episode whose first step fails is [-code_drift], not [code_drift], and
    the reward is [code_drift], not [-code_drift]. *)
Lemma first_step_failure_negative_limit :
  match step_prelude Demo.env_negative_limit (w_ops Demo.world_fail_first) with
  | Ok (self1, o1) =>
      match define_model self1 5 o1 with
      | Ok (o0, _) => status_at self1 0 o0 <> 0
      | Raise _ => False
      end
  | Raise _ => False
  end
  /\ match step Demo.env_negative_limit 4 Demo.world_fail_first with
     | Ok (r, self', _) =>
         Py.feq (last_alphavalue self') (code_drift Demo.env_negative_limit) = false
         /\ Py.feq (reward r) (Py.fneg (code_drift Demo.env_negative_limit)) = false
     | Raise _ => False
     end.
Proof. vm_compute. split; [discriminate|split; reflexivity]. Qed.

(** C10, amended: when the solver fails on the first [ops.analyze] of an
    episode, [max_disps] is all zeros, [max_story_drift] is 0.0, the
    returned [alphavalue] is [|code_drift|] and the reward [-|code_drift|]
    (so [code_drift] and [-code_drift] for a drift limit that is not
    negative, as the default 0.01), and the line [0.000000e+00] is appended
    to each of the ten log files. *)
Theorem first_step_failure
    (E : Type) (Eng : Engine E) (self self1 : Env) (action : Z) (w : World E)
    (o1 o0 : Ops E) (tag : Z) :
  floor_num self = 10 ->
  (0 < Z.to_nat (num_steps self))%nat ->
  step_prelude self (w_ops w) = Ok (self1, o1) ->
  define_model self1 (action + 1) o1 = Ok (o0, tag) ->
  status_at self1 0 o0 <> 0 ->
  let alphavalue := Py.fabs (code_drift self) in
  let max_disps := Py.zeros 10 in
  run_opensees_analysis self1 (action + 1) o1 =
    Ok ((alphavalue, max_disps), state_after self1 1 o0)
  /\ max_story_drift_loop self1 max_disps = 0%float
  /\ (Py.fle 0 (code_drift self) = true ->
      Py.feq alphavalue (code_drift self) = true
      /\ Py.feq (Py.fneg alphavalue) (Py.fneg (code_drift self)) = true)
  /\ exists fs' : FileSystem,
       step self action w =
         Ok (MkStepReturn [Py.float32 alphavalue] (Py.fneg alphavalue) true [],
             set_last_alphavalue alphavalue self1, MkWorld (state_after self1 1 o0) fs')
       /\ forall f, 1 <= f <= 10 ->
            Os.read_text (floor_file f) fs' =
            Some (default EmptyString (Os.read_text (floor_file f) (w_fs w))
                  +:+ ("0.000000e+00" +:+ Fmt.nl))%string.
Proof.
  intros Hfn Hsteps Hprelude Hdef Hfail alphavalue max_disps.
  destruct (step_prelude_fields _ _ _ _ Hprelude) as (Hfn1 & Hcd & _ & Hns & _).
  destruct (run_first_failure self1 (action + 1) o1 o0 tag) as (Hrun & Hmax & _);
    [rewrite Hfn1; exact Hfn|rewrite Hns; exact Hsteps|exact Hdef|exact Hfail|].
  rewrite Hcd in Hrun. fold alphavalue max_disps in Hrun.
  split; [exact Hrun|]. split; [exact Hmax|]. split.
  - intros Hnonneg. unfold Py.feq, Py.fneg. rewrite eqb_opp.
    split; apply abs_nonneg, Hnonneg.
  - destruct (step_log_files self self1 action w o1 _ alphavalue max_disps Hfn Hprelude Hrun)
      as (fs' & Hstep & _ & Hfiles & _).
    exists fs'. split; [exact Hstep|].
    intros f Hf. rewrite (Hfiles f Hf). do 2 f_equal.
    assert (Hcases : f = 1 \/ f = 2 \/ f = 3 \/ f = 4 \/ f = 5 \/ f = 6 \/ f = 7 \/ f = 8
                     \/ f = 9 \/ f = 10) by lia.
    repeat (destruct Hcases as [->|Hcases]; [reflexivity|]). subst f. reflexivity.
Qed.

Lemma first_step_failure_witness :
  exists r self' w',
    step Demo.env0 4 Demo.world_fail_first = Ok (r, self', w')
    /\ last_alphavalue self' = Py.fabs (code_drift Demo.env0).
Proof.
  destruct (step_prelude Demo.env0 (w_ops Demo.world_fail_first)) as [[self1 o1]|e]
    eqn:Hprelude; [|vm_compute in Hprelude; discriminate Hprelude].
  destruct (define_model self1 5 o1) as [[o0 tag]|e] eqn:Hdef.
  - destruct (first_step_failure Scripted.t _ Demo.env0 self1 4 Demo.world_fail_first
                o1 o0 tag eq_refl ltac:(cbn; lia) Hprelude Hdef)
      as (_ & _ & _ & fs' & Hstep & _).
    + vm_compute in Hprelude. injection Hprelude as <- <-.
      vm_compute in Hdef. injection Hdef as <- <-. vm_compute. discriminate.
    + eexists _, _, _. split; [exact Hstep|reflexivity].
  - vm_compute in Hprelude. injection Hprelude as <- <-.
    vm_compute in Hdef. discriminate Hdef.
Defined.

(** * Further properties of the analysis *)

Section FullRun.
Context {E : Type} `{Engine E}.

(** When every step succeeds the loop accepts all of them. *)
Lemma time_loop_success (self : Env) (steps : nat) (o : Ops E) (max_disps : list float) :
  (forall j, (j < steps)%nat -> status_at self j o = 0) ->
  successful_states self steps o = map (fun j => state_after self (S j) o) (seq 0 steps)
  /\ fst (time_loop self steps o max_disps) = state_after self steps o.
Proof.
  revert o max_disps. induction steps as [|steps IH]; intros o max_disps Hok.
  - split; reflexivity.
  - cbn [successful_states time_loop].
    pose proof (Hok 0%nat ltac:(lia)) as H0.
    unfold status_at in H0. cbn [state_after] in H0.
    unfold ops_analyze in *. cbn [fst snd] in *.
    rewrite H0. cbn [Z.eqb negb].
    destruct (IH (ops_record (Analyze 1 (dt self)) o)
                (record_max self (ops_record (Analyze 1 (dt self)) o) max_disps))
      as [Hstates Hstate].
    + intros j Hj. rewrite <- status_at_succ. apply Hok. lia.
    + rewrite Hstates, Hstate. split; [|reflexivity].
      cbn [seq map]. f_equal. rewrite <- seq_shift, map_map. reflexivity.
Qed.

End FullRun.

(** X1: whatever the solver held before, after a [run_opensees_analysis]
    that returned its model is the one the function defines, followed only
    by analysis steps, at most [num_steps] of them. *)
Theorem run_rebuilds_model_from_scratch
    (E : Type) (Eng : Engine E) (self : Env) (damper_floor : Z) (o o' : Ops E)
    (r : float * list float) :
  floor_num self = 10 ->
  run_opensees_analysis self damper_floor o = Ok (r, o') ->
  exists k : nat,
    (k <= Z.to_nat (num_steps self))%nat
    /\ current_model (ops_log o') =
       model_calls self damper_floor ++ replicate k (Analyze 1 (dt self)).
Proof.
  intros Hfn Hrun. destruct (run_log self damper_floor o o' r Hfn Hrun) as (k & Hk & Hlog).
  exists k. split; [exact Hk|]. rewrite Hlog.
  apply current_model_after_wipe, Forall_app. split; [apply model_calls_no_wipe|].
  apply Forall_replicate. discriminate.
Qed.

Lemma run_rebuilds_model_from_scratch_witness :
  match run_opensees_analysis Demo.env0 5 (w_ops Demo.world0) with
  | Ok (_, o') =>
      exists k : nat,
        (k <= 3)%nat
        /\ current_model (ops_log o') =
           model_calls Demo.env0 5 ++ replicate k (Analyze 1 (dt Demo.env0))
  | Raise _ => False
  end.
Proof.
  destruct (run_opensees_analysis Demo.env0 5 (w_ops Demo.world0)) as [[r o']|e] eqn:Hrun.
  - apply (run_rebuilds_model_from_scratch Scripted.t _ Demo.env0 5 (w_ops Demo.world0) o' r
             eq_refl Hrun).
  - vm_compute in Hrun. discriminate Hrun.
Defined.

(** X2: when no step fails, the loop calls [ops.analyze] exactly [num_steps]
    times and every entry of [max_disps] is the peak of its node over all of
    them. *)
Theorem run_without_failure
    (E : Type) (Eng : Engine E) (self : Env) (damper_floor : Z) (o o0 : Ops E) (tag : Z) :
  let steps := Z.to_nat (num_steps self) in
  define_model self damper_floor o = Ok (o0, tag) ->
  (forall j, (j < steps)%nat -> status_at self j o0 = 0) ->
  exists (alphavalue : float) (max_disps : list float),
    run_opensees_analysis self damper_floor o =
      Ok ((alphavalue, max_disps), state_after self steps o0)
    /\ ops_log (state_after self steps o0) =
       ops_log o0 ++ replicate steps (Analyze 1 (dt self))
    /\ forall i, 0 <= i < floor_num self ->
         Py.getitem max_disps i =
         signed_peak (map (fun j => ops_nodeDisp (i + 2) 1 (state_after self (S j) o0))
                        (seq 0 steps)).
Proof.
  intros steps Hdef Hok.
  destruct (time_loop_success self steps o0 (Py.zeros (floor_num self)) Hok)
    as [Hstates Hstate].
  eexists _, _. split.
  { rewrite (run_of_model self damper_floor o o0 tag Hdef). cbv zeta.
    fold steps. rewrite Hstate. reflexivity. }
  split; [apply state_after_log|].
  intros i Hi. rewrite max_disps_entry by assumption.
  unfold floor_history, node_history. fold steps. rewrite Hstates, map_map.
  reflexivity.
Qed.

Lemma run_without_failure_witness :
  exists (alphavalue : float) (max_disps : list float) (o' : Ops Scripted.t),
    run_opensees_analysis Demo.env0 5 (w_ops Demo.world0) = Ok ((alphavalue, max_disps), o')
    /\ Py.getitem max_disps 1 = (-0.3)%float.
Proof.
  destruct (define_model Demo.env0 5 (w_ops Demo.world0)) as [[o0 tag]|e] eqn:Hdef.
  - destruct (run_without_failure Scripted.t _ Demo.env0 5 (w_ops Demo.world0) o0 tag Hdef)
      as (alphavalue & max_disps & Hrun & _ & Hentries).
    + intros j Hj. vm_compute in Hdef. injection Hdef as <- <-.
      destruct j as [|[|[|j]]]; [reflexivity|reflexivity|reflexivity|cbn in Hj; lia].
    + eexists _, _, _. split; [exact Hrun|].
      rewrite (Hentries 1) by (cbn; lia).
      vm_compute in Hdef. injection Hdef as <- <-. reflexivity.
  - vm_compute in Hdef. discriminate Hdef.
Defined.

(** X3: the [max_disps] that [run_opensees_analysis] returns has one entry
    per floor, whatever the solver does. *)
Theorem max_disps_length
    (E : Type) (Eng : Engine E) (self : Env) (damper_floor : Z) (o o' : Ops E)
    (alphavalue : float) (max_disps : list float) :
  run_opensees_analysis self damper_floor o = Ok ((alphavalue, max_disps), o') ->
  length max_disps = Z.to_nat (floor_num self).
Proof.
  intros Hrun. apply run_inv in Hrun as (o0 & tag & _ & Hrest). cbv zeta in Hrest.
  destruct Hrest as (-> & _). apply max_disps_loop_length.
Qed.

Lemma max_disps_length_witness :
  match run_opensees_analysis Demo.env0 5 (w_ops Demo.world_fail_second) with
  | Ok ((_, max_disps), _) => length max_disps = 10%nat
  | Raise _ => False
  end.
Proof.
  destruct (run_opensees_analysis Demo.env0 5 (w_ops Demo.world_fail_second))
    as [[[alphavalue max_disps] o']|e] eqn:Hrun.
  - apply (max_disps_length Scripted.t _ Demo.env0 5 (w_ops Demo.world_fail_second) o'
             alphavalue max_disps Hrun).
  - vm_compute in Hrun. discriminate Hrun.
Defined.



(** * The elements of the model *)

Lemma inter_floor_links_eq :
  inter_floor_links =
  [(1, 2, 3); (2, 3, 4); (3, 4, 5); (4, 5, 6); (5, 6, 7); (6, 7, 8); (7, 8, 9);
   (8, 9, 10); (9, 10, 11)].
Proof. reflexivity. Qed.

Lemma inter_floor_link_shape (l : Z * Z * Z) :
  l ∈ inter_floor_links ->
  1 <= link_tag l <= 9 /\ snd (fst l) = link_tag l + 1 /\ snd l = link_tag l + 2.
Proof.
  unfold inter_floor_links. intros (i & -> & Hi%elem_of_range)%list_elem_of_fmap.
  cbn. lia.
Qed.

(** X5: no two elements of the model share a tag: the damper takes the tag 10,
    after the tags 1..9 of the inter-floor links. *)
Theorem element_tags_distinct
    (E : Type) (Eng : Engine E) (self : Env) (damper_floor : Z) (o o' : Ops E)
    (r : float * list float) :
  floor_num self = 10 ->
  run_opensees_analysis self damper_floor o = Ok (r, o') ->
  NoDup (map link_tag (model_links (ops_log o'))).
Proof.
  intros Hfn Hrun. rewrite (run_model_links self damper_floor o o' r Hfn Hrun).
  rewrite inter_floor_links_eq.
  destruct ((1 <=? damper_floor) && (damper_floor <? 10)); cbn;
    repeat (apply NoDup_cons_2; [rewrite ?elem_of_cons, ?elem_of_nil; lia|]);
    apply NoDup_nil_2.
Qed.

Lemma element_tags_distinct_witness :
  match run_opensees_analysis Demo.env0 5 (w_ops Demo.world0) with
  | Ok (_, o') => NoDup (map link_tag (model_links (ops_log o')))
  | Raise _ => False
  end.
Proof.
  destruct (run_opensees_analysis Demo.env0 5 (w_ops Demo.world0)) as [[r o']|e] eqn:Hrun.
  - apply (element_tags_distinct Scripted.t _ Demo.env0 5 (w_ops Demo.world0) o' r
             eq_refl Hrun).
  - vm_compute in Hrun. discriminate Hrun.
Defined.

(** X6: the inter-floor links join the nodes 2..11 only: the fixed node 1 is an
    end of an element exactly when the damper is on floor 1. *)
Theorem base_node_linked_only_by_first_floor_damper
    (E : Type) (Eng : Engine E) (self : Env) (damper_floor : Z) (o o' : Ops E)
    (r : float * list float) :
  floor_num self = 10 ->
  run_opensees_analysis self damper_floor o = Ok (r, o') ->
  (exists l, l ∈ model_links (ops_log o') /\ link_touches 1 l)
  <-> damper_floor = 1.
Proof.
  intros Hfn Hrun. rewrite (run_model_links self damper_floor o o' r Hfn Hrun). split.
  - intros (l & Hl & Htouch). apply elem_of_app in Hl as [Hl|Hl].
    + apply inter_floor_link_shape in Hl. unfold link_touches in Htouch. lia.
    + destruct ((1 <=? damper_floor) && (damper_floor <? 10)) eqn:Hguard.
      * apply list_elem_of_singleton in Hl as ->. unfold link_touches in Htouch.
        cbn in Htouch. lia.
      * apply elem_of_nil in Hl. contradiction.
  - intros ->. exists (10, 1, 2). split; [|left; reflexivity].
    apply elem_of_app. right. cbn. apply list_elem_of_singleton. reflexivity.
Qed.

Lemma base_node_linked_only_by_first_floor_damper_witness :
  match run_opensees_analysis Demo.env0 1 (w_ops Demo.world0) with
  | Ok (_, o') =>
      (exists l, l ∈ model_links (ops_log o') /\ link_touches 1 l) <-> 1 = 1
  | Raise _ => False
  end.
Proof.
  destruct (run_opensees_analysis Demo.env0 1 (w_ops Demo.world0)) as [[r o']|e] eqn:Hrun.
  - apply (base_node_linked_only_by_first_floor_damper Scripted.t _ Demo.env0 1
             (w_ops Demo.world0) o' r eq_refl Hrun).
  - vm_compute in Hrun. discriminate Hrun.
Defined.

(** * Signs *)

Lemma leb_opp_zero (a : float) : PrimFloat.leb (- a) 0 = PrimFloat.leb 0 a.
Proof.
  rewrite !leb_spec, opp_spec, Prim2SF_zero.
  destruct (Prim2SF a) as [[]|[]| |[] m e]; reflexivity.
Qed.

Lemma abs_div3_sign (y : float) :
  Prim2SF (abs y / 3) = S754_nan \/ PrimFloat.leb 0 (abs y / 3) = true.
Proof.
  assert (Hshape : match Prim2SF (abs y / 3) with
                   | S754_nan => True
                   | S754_zero s | S754_infinity s | S754_finite s _ _ => s = false
                   end).
  { rewrite div_spec, abs_spec, Prim2SF_three. unfold SF64div.
    destruct (Prim2SF y) as [sy|sy| |sy my ey]; simpl; auto.
    destruct (SFdiv_core_binary prec emax (Z.pos my) ey 6755399441055744 (-51))
      as [[mz ez] lz].
    apply (FloatRound.binary_round_aux_shape prec emax false mz ez lz). }
  rewrite leb_spec, Prim2SF_zero.
  destruct (Prim2SF (abs y / 3)) as [s|s| |s m e]; auto; subst s; right; reflexivity.
Qed.

Lemma isnan_false (x : float) : Prim2SF x <> S754_nan -> Py.isnan x = false.
Proof.
  intros Hx. unfold Py.isnan, is_nan. rewrite FloatAxioms.eqb_spec.
  destruct (Prim2SF x) as [[]|[]| |[] m e]; try reflexivity; try contradiction;
    unfold SFeqb; cbn; now rewrite Z.compare_refl, Pos.compare_cont_refl.
Qed.

(** X7: the largest drift ratio is a number and is not negative; for a finite
    drift limit so is [alphavalue]. *)
Theorem max_story_drift_not_negative
    (E : Type) (Eng : Engine E) (self : Env) (damper_floor : Z) (o o' : Ops E)
    (alphavalue : float) (max_disps : list float) :
  run_opensees_analysis self damper_floor o = Ok ((alphavalue, max_disps), o') ->
  let max_story_drift := max_story_drift_loop self max_disps in
  Py.isnan max_story_drift = false
  /\ Py.fle 0 max_story_drift = true
  /\ (Py.isfinite (code_drift self) = true -> Py.fle 0 alphavalue = true).
Proof.
  intros Hrun. apply run_inv in Hrun as (o0 & tag & _ & Hrest). cbv zeta in Hrest.
  destruct Hrest as (Hmd & Halpha & _). rewrite <- Hmd in Halpha. cbv zeta.
  destruct (max_story_drift_spec self max_disps) as (_ & Hin & Hnan).
  assert (Hnonneg : Py.fle 0 (max_story_drift_loop self max_disps) = true).
  { destruct Hin as [Hin|[-> _]]; [|reflexivity].
    unfold story_drifts in Hin. apply list_elem_of_fmap in Hin as (i & Hm & _).
    destruct (abs_div3_sign (Py.fsub (Py.getitem max_disps (i + 1)) (Py.getitem max_disps i)))
      as [Hbad|Hle].
    - exfalso. apply Hnan. rewrite Hm. exact Hbad.
    - rewrite Hm. exact Hle. }
  split; [|split; [exact Hnonneg|]].
  - apply isnan_false, Hnan.
  - intros Hfinite. rewrite Halpha.
    destruct (neg_abs_sub_sign (max_story_drift_loop self max_disps) (code_drift self)
                Hnan Hfinite) as [Hle _].
    unfold Py.fle, Py.fabs, Py.fsub. rewrite <- leb_opp_zero. exact Hle.
Qed.

Lemma max_story_drift_not_negative_witness :
  match run_opensees_analysis Demo.env0 5 (w_ops Demo.world0) with
  | Ok ((alphavalue, max_disps), _) =>
      Py.isnan (max_story_drift_loop Demo.env0 max_disps) = false
      /\ Py.fle 0 (max_story_drift_loop Demo.env0 max_disps) = true
      /\ (Py.isfinite (code_drift Demo.env0) = true -> Py.fle 0 alphavalue = true)
  | Raise _ => False
  end.
Proof.
  destruct (run_opensees_analysis Demo.env0 5 (w_ops Demo.world0))
    as [[[alphavalue max_disps] o']|e] eqn:Hrun.
  - apply (max_story_drift_not_negative Scripted.t _ Demo.env0 5 (w_ops Demo.world0) o'
             alphavalue max_disps Hrun).
  - vm_compute in Hrun. discriminate Hrun.
Defined.

(** * The environment across steps and episodes *)

(** X8: a step changes the episode counter, [model_built] and
    [last_alphavalue] only; what it returns is read off the new
    [last_alphavalue]. *)
Theorem step_keeps_configuration
    (E : Type) (Eng : Engine E) (self : Env) (action : Z) (w : World E)
    (r : StepReturn) (self' : Env) (w' : World E) :
  step self action w = Ok (r, self', w') ->
  acc_data self' = acc_data self
  /\ num_steps self' = num_steps self
  /\ dt self' = dt self
  /\ floor_num self' = floor_num self
  /\ code_drift self' = code_drift self
  /\ state_dim self' = state_dim self
  /\ action_dim self' = action_dim self
  /\ episode_count self' = episode_count self + 1
  /\ reward r = Py.fneg (last_alphavalue self')
  /\ next_state r = [Py.float32 (last_alphavalue self')].
Proof.
  intros Hstep.
  apply step_inv in Hstep
    as (self1 & o1 & o2 & alphavalue & max_disps & fs' & Hprelude & _ & _ & -> & -> & _).
  destruct (step_prelude_fields _ _ _ _ Hprelude)
    as (Hfn & Hcd & Hdt & Hns & Hacc & Hcount & _ & Hsd & Had).
  cbn. repeat split; assumption.
Qed.

Lemma step_keeps_configuration_witness :
  match step Demo.env0 4 Demo.world0 with
  | Ok (r, self', _) =>
      episode_count self' = episode_count Demo.env0 + 1
      /\ reward r = Py.fneg (last_alphavalue self')
  | Raise _ => False
  end.
Proof.
  destruct (step Demo.env0 4 Demo.world0) as [[[r self'] w']|e] eqn:Hstep.
  - pose proof (step_keeps_configuration Scripted.t _ Demo.env0 4 Demo.world0 r self' w'
                  Hstep) as Hkept.
    split; apply Hkept.
  - vm_compute in Hstep. discriminate Hstep.
Defined.

Section Training.
Context {E : Type} `{Engine E}.

Lemma floor_lines_after_step (self self' : Env) (action : Z) (w w' : World E)
    (r : StepReturn) :
  floor_num self = 10 ->
  step self action w = Ok (r, self', w') ->
  floor_num self' = 10
  /\ forall f, 1 <= f <= 10 ->
       floor_lines f (w_fs w') = S (floor_lines f (w_fs w)).
Proof.
  intros Hfn Hstep.
  destruct (step_log_files_inv self self' action w w' r Hfn Hstep)
    as (Hfn' & max_disps & Hfiles).
  split; [exact Hfn'|].
  intros f Hf. unfold floor_lines. rewrite (Hfiles f Hf). cbn [from_option id].
  rewrite FmtFacts.count_nl_app, log_line_count_nl. lia.
Qed.

Lemma episodes_log_lines (actions : list Z) (self self' : Env) (w w' : World E) :
  floor_num self = 10 ->
  episodes actions self w = Ok (self', w') ->
  forall f, 1 <= f <= 10 ->
    floor_lines f (w_fs w') = (floor_lines f (w_fs w) + length actions)%nat.
Proof.
  revert self w. induction actions as [|action rest IH]; intros self w Hfn Hrun.
  - cbn in Hrun. injection Hrun as <- <-. intros f _. cbn [length]. lia.
  - cbn [episodes reset] in Hrun.
    destruct (step (set_last_alphavalue 0 self) action w) as [[[r self1] w1]|e] eqn:Hstep;
      cbn in Hrun; [|discriminate Hrun].
    destruct (floor_lines_after_step (set_last_alphavalue 0 self) self1 action w w1 r
                Hfn Hstep) as (Hfn1 & Hlines).
    intros f Hf. rewrite (IH self1 w1 Hfn1 Hrun f Hf), (Hlines f Hf). cbn [length]. lia.
Qed.

End Training.

(** X9: a training run of [n] episodes on a new environment that ran to its
    end leaves the episode counter at [n] and has wiped the solver once per
    analysis and once more for each rebuild, [n + ceil(n / 10)] times in
    all. *)
Theorem training_run_wipes
    (E : Type) (Eng : Engine E) (record : list float) (dt code_drift : float)
    (actions : list Z) (w w' : World E) (self' : Env) :
  episodes actions (init record dt code_drift) w = Ok (self', w') ->
  let n := Z.of_nat (length actions) in
  episode_count self' = n
  /\ Z.of_nat (wipes (ops_log (w_ops w'))) =
     Z.of_nat (wipes (ops_log (w_ops w))) + n + (n + 9) / 10.
Proof.
  intros Hrun. cbv zeta.
  destruct (episodes_wipes actions (init record dt code_drift) self' w w' eq_refl)
    as (Hcount & Hwipes); [cbn; lia|exact Hrun|].
  cbv zeta in Hcount, Hwipes.
  change (episode_count (init record dt code_drift)) with 0 in Hcount, Hwipes.
  split; [rewrite Hcount; lia|].
  rewrite Hwipes. unfold rebuilds_upto. rewrite Z.add_0_l.
  change ((0 + 9) / 10) with 0. lia.
Qed.

Lemma training_run_wipes_witness :
  match episodes [4; 9] Demo.env0
          (MkWorld
             (Scripted.start
                [(0, [-0.5; 0.25]%float); (0, [0.5; -0.3]%float); (0, [0.1; 0.2]%float);
                 (-3, [9; 9]%float)])
             ∅) with
  | Ok (self', w') =>
      episode_count self' = 2 /\ Z.of_nat (wipes (ops_log (w_ops w'))) = 3
  | Raise _ => False
  end.
Proof.
  destruct (episodes [4; 9] Demo.env0 _) as [[self' w']|e] eqn:Hrun.
  - apply (training_run_wipes Scripted.t _ Demo.record default_dt default_code_drift
             [4; 9] _ w' self' Hrun).
  - vm_compute in Hrun. discriminate Hrun.
Defined.

(** X10: a training run of [n] episodes adds exactly [n] lines to each of the
    ten log files. *)
Theorem training_run_log_lines
    (E : Type) (Eng : Engine E) (record : list float) (dt code_drift : float)
    (actions : list Z) (w w' : World E) (self' : Env) :
  episodes actions (init record dt code_drift) w = Ok (self', w') ->
  forall f, 1 <= f <= 10 ->
    floor_lines f (w_fs w') = (floor_lines f (w_fs w) + length actions)%nat.
Proof.
  intros Hrun.
  apply (episodes_log_lines actions (init record dt code_drift) self' w w' eq_refl Hrun).
Qed.

Lemma training_run_log_lines_witness :
  match episodes [4; 9] Demo.env0 Demo.world0 with
  | Ok (_, w') =>
      forall f, 1 <= f <= 10 ->
        floor_lines f (w_fs w') = (floor_lines f (w_fs Demo.world0) + 2)%nat
  | Raise _ => False
  end.
Proof.
  destruct (episodes [4; 9] Demo.env0 Demo.world0) as [[self' w']|e] eqn:Hrun.
  - apply (training_run_log_lines Scripted.t _ Demo.record default_dt default_code_drift
             [4; 9] Demo.world0 w' self' Hrun).
  - vm_compute in Hrun. discriminate Hrun.
Defined.

(** * Which displacement an entry keeps *)

Lemma signed_peak_app (before after : list float) :
  signed_peak (before ++ after) = fold_left keep_larger after (signed_peak before).
Proof. unfold signed_peak. apply fold_left_app. Qed.

(** A value that no later displacement exceeds in magnitude stays. *)
Lemma fold_keep_larger_stable (history : list float) (m : float) :
  Forall (fun x => Py.fgt (Py.fabs x) (Py.fabs m) = false) history ->
  fold_left keep_larger history m = m.
Proof.
  induction 1 as [|x history Hx _ IH]; cbn [fold_left]; [reflexivity|].
  unfold keep_larger at 2. rewrite Hx. exact IH.
Qed.

Lemma abs_not_nan (x : float) : Prim2SF (abs x) <> S754_nan -> Prim2SF x <> S754_nan.
Proof. rewrite abs_spec. intros Habs Hx. apply Habs. now rewrite Hx. Qed.

Lemma signed_peak_not_nan (history : list float) : Py.isnan (signed_peak history) = false.
Proof.
  apply isnan_false, abs_not_nan. rewrite signed_peak_keep_by.
  apply (fold_keep_by PrimFloat.abs history 0%float).
  rewrite abs_zero, Prim2SF_zero. discriminate.
Qed.

(** X11: the comparison is strict, so of the displacements of largest magnitude
    the earliest is the one recorded, with its sign. *)
Theorem first_peak_is_recorded
    (E : Type) (Eng : Engine E) (self : Env) (damper_floor : Z) (o o0 : Ops E) (tag i : Z)
    (before after : list float) (peak : float) :
  0 <= i < floor_num self ->
  define_model self damper_floor o = Ok (o0, tag) ->
  floor_history self o0 (i + 2) = before ++ peak :: after ->
  Py.fgt (Py.fabs peak) 0 = true ->
  Forall (fun x => Py.fgt (Py.fabs peak) (Py.fabs x) = true) before ->
  Forall (fun x => Py.fgt (Py.fabs x) (Py.fabs peak) = false) after ->
  exists (alphavalue : float) (max_disps : list float) (o' : Ops E),
    run_opensees_analysis self damper_floor o = Ok ((alphavalue, max_disps), o')
    /\ Py.getitem max_disps i = peak.
Proof.
  intros Hi Hdef Hhistory Hpos Hbefore Hafter.
  eexists _, _, _. split; [apply (run_of_model self damper_floor o o0 tag Hdef)|].
  cbn [fst snd]. rewrite max_disps_entry, Hhistory, signed_peak_app by assumption.
  cbn [fold_left].
  assert (Hkeep : keep_larger (signed_peak before) peak = peak).
  { unfold keep_larger.
    destruct (signed_peak_spec before) as [[->|Hin] _].
    - change (Py.fabs 0) with 0%float. now rewrite Hpos.
    - rewrite Forall_forall in Hbefore. now rewrite (Hbefore _ Hin). }
  rewrite Hkeep. apply fold_keep_larger_stable, Hafter.
Qed.

Lemma first_peak_is_recorded_witness :
  exists (alphavalue : float) (max_disps : list float) (o' : Ops Scripted.t),
    run_opensees_analysis Demo.env0 5 (w_ops Demo.world0) = Ok ((alphavalue, max_disps), o')
    /\ Py.getitem max_disps 0 = (-0.5)%float.
Proof.
  destruct (define_model Demo.env0 5 (w_ops Demo.world0)) as [[o0 tag]|e] eqn:Hdef.
  - apply (first_peak_is_recorded Scripted.t _ Demo.env0 5 (w_ops Demo.world0) o0 tag 0
             [] [0.5; 0.1]%float (-0.5)%float).
    + cbn. lia.
    + exact Hdef.
    + vm_compute in Hdef. injection Hdef as <- <-. reflexivity.
    + reflexivity.
    + constructor.
    + repeat constructor.
  - vm_compute in Hdef. discriminate Hdef.
Defined.

(** X12: a NaN displacement is never recorded: no entry of [max_disps] is NaN,
    whatever the solver reports. *)
Theorem max_disps_never_nan
    (E : Type) (Eng : Engine E) (self : Env) (damper_floor : Z) (o o' : Ops E)
    (alphavalue : float) (max_disps : list float) (i : Z) :
  run_opensees_analysis self damper_floor o = Ok ((alphavalue, max_disps), o') ->
  0 <= i < floor_num self ->
  Py.isnan (Py.getitem max_disps i) = false.
Proof.
  intros Hrun Hi. apply run_inv in Hrun as (o0 & tag & _ & Hrest). cbv zeta in Hrest.
  destruct Hrest as (-> & _).
  rewrite max_disps_entry by assumption. apply signed_peak_not_nan.
Qed.

Lemma max_disps_never_nan_witness :
  match run_opensees_analysis Demo.env0 5
          (Scripted.start [(0, [nan; 0.25]%float); (0, [0.5; nan]%float)]) with
  | Ok ((_, max_disps), _) => Py.isnan (Py.getitem max_disps 0) = false
  | Raise _ => False
  end.
Proof.
  destruct (run_opensees_analysis Demo.env0 5 _) as [[[alphavalue max_disps] o']|e] eqn:Hrun.
  - apply (max_disps_never_nan Scripted.t _ Demo.env0 5 _ o' alphavalue max_disps 0 Hrun).
    cbn. lia.
  - vm_compute in Hrun. discriminate Hrun.
Defined.
